(** * ettj_getter.contador_dias: expiry dates and day counts

    A shallow embedding of [src/ettj_getter/contador_dias.py] and the
    properties of its expiry resolvers, day counters and batch applicator.

    Conventions of the embedding.
    - A date is the proleptic Gregorian ordinal of [datetime.toordinal]
      (0001-01-01 is day 1).  Every timestamp the module handles sits at
      midnight, so a whole-day ordinal carries all of it.
    - A pandas index is a list of dates in index order; boolean-mask
      selection is [filter], [index[i]] is list lookup, [index[-1]] is
      [last]; an out-of-range position raises [IndexError].
    - [DUS_DF], the B3 trading calendar, comes from
      [pandas_market_calendars]; it is a parameter of everything below.
    - Text is ASCII. *)

From Stdlib Require Import ZArith Lia.
From stdpp Require Import base decidable option list list_numbers sorting.
From stdpp Require Import gmap strings pretty.

Local Open Scope Z_scope.

(** ** Python values, exceptions and results *)

Inductive pyerror : Set :=
  | IndexError
  | ValueError
  | TypeError.

Inductive result (A : Type) : Type :=
  | Ok (a : A)
  | Raise (e : pyerror).
Arguments Ok {A} a.
Arguments Raise {A} e.

(** Sequencing: an exception skips the rest of the body. *)
Global Instance result_bind : MBind result := λ A B k r,
  match r with
  | Ok a => k a
  | Raise e => Raise e
  end.

Global Instance result_ret : MRet result := λ A a, Ok a.

(** The row loop of [df.apply(f, axis=1)]: rows are visited in order and
    the first exception aborts the whole call. *)
Fixpoint apply_rows {A B} (f : A → result B) (rows : list A) : result (list B) :=
  match rows with
  | [] => Ok []
  | r :: rows =>
      v ← f r;
      vs ← apply_rows f rows;
      Ok (v :: vs)
  end.

(** What [df.apply(f, axis=1)] returns: the Series of the row results on
    a frame with rows; on a frame without rows pandas does not run the
    loop and hands back a copy of the frame itself. *)
Inductive applied (B : Type) : Type :=
  | RowResults (col : list B)
  | FrameCopy.
Arguments RowResults {B} col.
Arguments FrameCopy {B}.

Definition df_apply {A B} (f : A → result B) (rows : list A)
    : result (applied B) :=
  match rows with
  | [] => Ok FrameCopy
  | _ :: _ => col ← apply_rows f rows; Ok (RowResults col)
  end.

(** The values that reach the [month] and [year] arguments: an [int], a
    [float] holding a whole number or NaN (a month column with a missing
    entry is a float column), or a [str]. *)
Inductive pyval : Type :=
  | PyInt (n : Z)
  | PyFloat (f : option Z)
  | PyStr (s : string).

Definition iloc {A} (l : list A) (i : nat) : result A :=
  match l !! i with
  | Some x => Ok x
  | None => Raise IndexError
  end.

Definition iloc_last {A} (l : list A) : result A :=
  match last l with
  | Some x => Ok x
  | None => Raise IndexError
  end.

(** *** [int(...)] *)

Definition ascii_code (a : Ascii.ascii) : Z := Z.of_N (Ascii.N_of_ascii a).

Definition digit_value (a : Ascii.ascii) : option Z :=
  let n := ascii_code a in
  if (48 <=? n) && (n <=? 57) then Some (n - 48) else None.

(** [Py_ISSPACE]: tab, line feed, vertical tab, form feed, carriage
    return and space. *)
Definition is_space (a : Ascii.ascii) : bool :=
  let n := ascii_code a in
  ((9 <=? n) && (n <=? 13)) || (n =? 32).

Fixpoint lstrip (s : string) : string :=
  match s with
  | String a s' => if is_space a then lstrip s' else s
  | EmptyString => s
  end.

Definition strip (s : string) : string :=
  String.rev (lstrip (String.rev (lstrip s))).

(** Decimal digits with single underscores allowed between two digits.
    [prev] tells whether the previous character was a digit. *)
Fixpoint int_digits (acc : Z) (prev : bool) (s : string) : option Z :=
  match s with
  | EmptyString => if prev then Some acc else None
  | String a s' =>
      match digit_value a with
      | Some d => int_digits (10 * acc + d) true s'
      | None =>
          if (ascii_code a =? 95) && prev then int_digits acc false s' else None
      end
  end.

Definition int_of_str (s : string) : option Z :=
  match strip s with
  | String a s' =>
      if ascii_code a =? 43 then int_digits 0 false s'
      else if ascii_code a =? 45 then Z.opp <$> int_digits 0 false s'
      else int_digits 0 false (String a s')
  | EmptyString => None
  end.

Definition py_int (v : pyval) : result Z :=
  match v with
  | PyInt n => Ok n
  | PyFloat (Some n) => Ok n
  | PyFloat None => Raise ValueError
  | PyStr s =>
      match int_of_str s with
      | Some n => Ok n
      | None => Raise ValueError
      end
  end.

(** *** [f"{v}"] *)

Definition py_str (v : pyval) : string :=
  match v with
  | PyInt n => pretty n
  | PyFloat (Some n) => pretty n +:+ ".0"
  | PyFloat None => "nan"
  | PyStr s => s
  end.

(** [v < 10] *)
Definition py_lt_10 (v : pyval) : result bool :=
  match v with
  | PyInt n => Ok (bool_decide (n < 10))
  | PyFloat (Some n) => Ok (bool_decide (n < 10))
  | PyFloat None => Ok false
  | PyStr _ => Raise TypeError
  end.

(** ** Calendar arithmetic of [datetime] *)

Abbreviation date := Z (only parsing).

Definition is_leap (y : Z) : bool :=
  (y mod 4 =? 0) && (negb (y mod 100 =? 0) || (y mod 400 =? 0)).

Definition days_before_year (y : Z) : Z :=
  let p := y - 1 in p * 365 + p / 4 - p / 100 + p / 400.

Definition DAYS_IN_MONTH : list Z :=
  [31; 28; 31; 30; 31; 30; 31; 31; 30; 31; 30; 31].

(** [_DAYS_BEFORE_MONTH]: the days of a common year before month [m]. *)
Definition DAYS_BEFORE_MONTH (m : Z) : Z :=
  foldr Z.add 0 (take (Z.to_nat (m - 1)) DAYS_IN_MONTH).

Definition days_in_month (y m : Z) : Z :=
  if (m =? 2) && is_leap y then 29 else DAYS_IN_MONTH !!! Z.to_nat (m - 1).

Definition days_before_month (y m : Z) : Z :=
  DAYS_BEFORE_MONTH m + (if (2 <? m) && is_leap y then 1 else 0).

Definition ymd2ord (y m d : Z) : date :=
  days_before_year y + days_before_month y m + d.

Definition ord2ymd (ord : date) : Z * Z * Z :=
  let n := ord - 1 in
  let n400 := n / 146097 in
  let n := n mod 146097 in
  let n100 := n / 36524 in
  let n := n mod 36524 in
  let n4 := n / 1461 in
  let n := n mod 1461 in
  let n1 := n / 365 in
  let n := n mod 365 in
  let year := n400 * 400 + 1 + n100 * 100 + n4 * 4 + n1 in
  if (n1 =? 4) || (n100 =? 4) then (year - 1, 12, 31)
  else
    let leapyear := (n1 =? 3) && (negb (n4 =? 24) || (n100 =? 3)) in
    let month := Z.shiftr (n + 50) 5 in
    let preceding :=
      DAYS_BEFORE_MONTH month + (if (2 <? month) && leapyear then 1 else 0) in
    if n <? preceding
    then
      let month := month - 1 in
      let preceding :=
        preceding - (DAYS_IN_MONTH !!! Z.to_nat (month - 1)
                     + (if (month =? 2) && leapyear then 1 else 0)) in
      (year, month, n - preceding + 1)
    else (year, month, n - preceding + 1).

Definition year_of (d : date) : Z := (ord2ymd d).1.1.
Definition month_of (d : date) : Z := (ord2ymd d).1.2.
Definition day_of (d : date) : Z := (ord2ymd d).2.

(** Monday is 0, Sunday is 6. *)
Definition weekday (d : date) : Z := (d + 6) mod 7.

(** [pd.date_range(start, end, freq="D")], both ends included. *)
Fixpoint days_from (start_d : date) (periods : nat) : list date :=
  match periods with
  | O => []
  | S n => start_d :: days_from (start_d + 1) n
  end.

Definition date_range (start_d end_d : date) : list date :=
  days_from start_d (Z.to_nat (end_d - start_d + 1)).

(** *** [datetime.strptime(f"15/{month}/{year}", "%d/%m/%Y")]

    The day is the literal 15.  [%m] accepts [1[0-2]|0[1-9]|[1-9]] and
    [%Y] exactly four digits; the whole text must be consumed, and year 0
    is rejected. *)

Fixpoint all_digits (acc : Z) (s : string) : option Z :=
  match s with
  | EmptyString => Some acc
  | String a s' =>
      d ← digit_value a; all_digits (10 * acc + d) s'
  end.

Definition parse_m (s : string) : option Z :=
  v ← all_digits 0 s;
  if ((String.length s =? 1)%nat && (1 <=? v) && (v <=? 9))
     || ((String.length s =? 2)%nat && (1 <=? v) && (v <=? 12))
  then Some v else None.

Definition parse_Y (s : string) : option Z :=
  if (String.length s =? 4)%nat then all_digits 0 s else None.

Definition strptime_15 (month year : string) : result date :=
  match parse_m month, parse_Y year with
  | Some m, Some y => if 1 <=? y then Ok (ymd2ord y m 15) else Raise ValueError
  | _, _ => Raise ValueError
  end.

(** ** Module state *)

Definition MONTH_CODES : gmap string Z :=
  list_to_map
    [("F", 1); ("G", 2); ("H", 3); ("J", 4); ("K", 5); ("M", 6);
     ("N", 7); ("Q", 8); ("U", 9); ("V", 10); ("X", 11); ("Z", 12)].

Definition start_date : date := ymd2ord 1990 1 1.
Definition end_date : date := ymd2ord 2070 1 1.

Definition DCS_DF : list date := date_range start_date end_date.

(** [sort_values(by=key)]: the rows ordered by a key column.  The frames
    sorted here hold the Wednesdays of one month, at most five rows, on
    which the default sort is a plain insertion sort. *)
Fixpoint sort_insert {A} (key : A → Z) (x : A) (l : list A) : list A :=
  match l with
  | [] => [x]
  | y :: l' =>
      if key x <=? key y then x :: y :: l' else y :: sort_insert key x l'
  end.

Fixpoint sort_values {A} (key : A → Z) (l : list A) : list A :=
  match l with
  | [] => []
  | x :: l' => sort_insert key x (sort_values key l')
  end.

(** The mask [(index.month == m) & (index.year == y)]. *)
Definition in_month (m y : Z) (d : date) : Prop :=
  month_of d = m ∧ year_of d = y.

Global Instance in_month_dec m y d : Decision (in_month m y d) :=
  ltac:(unfold in_month; apply _).

Section resolvers.
(** The trading calendar: the index of [DUS_DF]. *)
Variable DUS_DF : list date.

Definition get_first_du_month (month year : pyval) : result date :=
  m ← py_int month;
  y ← py_int year;
  let dus_month := filter (in_month m y) DUS_DF in
  iloc dus_month 0.

Definition get_last_du_month (month year : pyval) : result date :=
  m ← py_int month;
  y ← py_int year;
  let dus_month := filter (in_month m y) DUS_DF in
  iloc_last dus_month.

Definition get_third_friday_du_month (month year : pyval) : result date :=
  m ← py_int month;
  y ← py_int year;
  let dcs_month := filter (in_month m y) DCS_DF in
  let dcs_month := filter (λ d, weekday d = 4) dcs_month in
  third_friday ← iloc dcs_month 2;
  if decide (third_friday ∉ DUS_DF) then
    let dus_ate := filter (λ d, d < third_friday) DUS_DF in
    iloc_last dus_ate
  else Ok third_friday.

Definition dist_fifteen (d : date) : Z := Z.abs (15 - day_of d).

Definition get_wednesday_closest_fifteen (month year : pyval) : result date :=
  m ← py_int month;
  y ← py_int year;
  let dcs_month := filter (in_month m y) DCS_DF in
  let wednesdays := filter (λ d, weekday d = 2) dcs_month in
  closest_wednesday ← iloc (sort_values dist_fifteen wednesdays) 0;
  if decide (closest_wednesday ∉ DUS_DF) then
    let dus_depois := filter (λ d, closest_wednesday < d) DUS_DF in
    iloc dus_depois 0
  else Ok closest_wednesday.

Definition get_fifteen (month year : pyval) : result date :=
  m ← py_int month;
  y ← py_int year;
  let dus_month := filter (in_month m y) DUS_DF in
  small ← py_lt_10 month;
  let month := if small : bool then PyStr ("0" +:+ py_str month) else month in
  dia_15 ← strptime_15 (py_str month) (py_str year);
  let dus_month := filter (λ d, dia_15 ≤ d) dus_month in
  iloc dus_month 0.

(** ** Day counts *)

Definition calc_du (dia_1 dia_n : date) : nat :=
  length (filter (λ d, dia_1 < d ∧ d ≤ dia_n) DUS_DF).

Definition calc_dc (dia_1 dia_n : date) : nat :=
  length (filter (λ d, dia_1 < d ∧ d ≤ dia_n) DCS_DF).

(** ** The batch applicator *)

(** The two columns of the frame that [add_dia_vencimento_df] reads or
    writes; every other column is carried along untouched. *)
Record DataFrame : Type := mkDataFrame {
  vencimento : list string;
  vencimento_dt : option (list date);
}.

(** [.str[0]]: the first character, or a missing value. *)
Definition str_first (s : string) : option string :=
  match s with
  | String a _ => Some (String a EmptyString)
  | EmptyString => None
  end.

(** [.str[1:]] *)
Definition str_rest (s : string) : string :=
  match s with
  | String _ s' => s'
  | EmptyString => EmptyString
  end.

(** [df["vencimento"].str[0].map(MONTH_CODES)]: a first character
    outside the table, or no first character, maps to a missing value. *)
Definition map_month_code (s : string) : option Z :=
  k ← str_first s; MONTH_CODES !! k.

Definition mes_vcto_raw (codes : list string) : list (option Z) :=
  map_month_code <$> codes.

(** The column is [int64] when every code maps and [float64] when one
    does not; a row then sees its month as an [int] or as a [float]. *)
Definition mes_vcto (codes : list string) : list pyval :=
  let raw := mes_vcto_raw codes in
  if bool_decide (Forall is_Some raw)
  then (λ o, PyInt (default 0 o)) <$> raw
  else PyFloat <$> raw.

(** ["20" + df["vencimento"].str[1:]] *)
Definition ano_vcto (codes : list string) : list pyval :=
  (λ s, PyStr ("20" +:+ str_rest s)) <$> codes.

Definition set_vencimento_dt (df : DataFrame) (col : list date) : DataFrame :=
  {| vencimento := vencimento df; vencimento_dt := Some col |}.

(** [df["vencimento_dt"] = value]: a Series becomes the column; a frame,
    which has several columns, cannot be set to the single column and
    raises [ValueError]. *)
Definition assign_vencimento_dt (df : DataFrame) (value : applied date)
    : result DataFrame :=
  match value with
  | RowResults col => Ok (set_vencimento_dt df col)
  | FrameCopy => Raise ValueError
  end.

Definition add_dia_vencimento_df (df : DataFrame) (metodo_venc : string)
    : result DataFrame :=
  let rows := zip (mes_vcto (vencimento df)) (ano_vcto (vencimento df)) in
  if decide (metodo_venc = "prim_du") then
    value ← df_apply (λ r, get_first_du_month r.1 r.2) rows;
    assign_vencimento_dt df value
  else if decide (metodo_venc = "ult_du") then
    value ← df_apply (λ r, get_last_du_month r.1 r.2) rows;
    assign_vencimento_dt df value
  else if decide (metodo_venc = "terceira_sexta") then
    value ← df_apply (λ r, get_third_friday_du_month r.1 r.2) rows;
    assign_vencimento_dt df value
  else if decide (metodo_venc = "quarta_prox_quinze") then
    value ← df_apply (λ r, get_wednesday_closest_fifteen r.1 r.2) rows;
    assign_vencimento_dt df value
  else if decide (metodo_venc = "dia_15") then
    value ← df_apply (λ r, get_fifteen r.1 r.2) rows;
    assign_vencimento_dt df value
  else Ok df.
End resolvers.

(** A small trading calendar for the examples: the weekdays from
    2020-12-01 to 2021-03-31 without 2021-01-01 and 2021-01-15. *)
Definition sample_DUS : list date :=
  filter (λ d, weekday d < 5 ∧ d ≠ ymd2ord 2021 1 1 ∧ d ≠ ymd2ord 2021 1 15)
    (date_range (ymd2ord 2020 12 1) (ymd2ord 2021 3 31)).

(** ** Specification-level notions *)

(** Strictly ascending order: sorted and free of duplicates. *)
Definition ascending (l : list date) : Prop := StronglySorted Z.lt l.

(** The number of dates of a calendar that lie in the interval
    (start, end], the calendar taken as a set. *)
Definition count_between (calendar : list date) (start_d end_d : date) : nat :=
  size (filter (λ d, start_d < d ∧ d ≤ end_d) (list_to_set calendar : gset Z)).

(** The loaded horizon [1990-01-01, 2070-01-01). *)
Definition in_horizon (d : date) : Prop := start_date ≤ d < end_date.

(** The Fridays, and the Wednesdays, of a month inside the calendar
    window, in calendar order. *)
Definition fridays_in_window (m y : Z) : list date :=
  filter (λ d, weekday d = 4 ∧ in_month m y d) DCS_DF.

Definition wednesdays_in_window (m y : Z) : list date :=
  filter (λ d, weekday d = 2 ∧ in_month m y d) DCS_DF.

(** A Friday of the month that exactly two Fridays of the month precede. *)
Definition is_third_friday (m y : Z) (tf : date) : Prop :=
  tf ∈ fridays_in_window m y
  ∧ length (filter (λ d, d < tf) (fridays_in_window m y)) = 2%nat.

(** How far the day of the month of a date is from 15. *)
Definition distance_to_day_15 (d : date) : Z := Z.abs (day_of d - 15).

(** A Wednesday of the month at the least distance from day 15, the
    earliest one among those at that distance. *)
Definition is_closest_wednesday (m y : Z) (w : date) : Prop :=
  w ∈ wednesdays_in_window m y
  ∧ ∀ w', w' ∈ wednesdays_in_window m y →
      distance_to_day_15 w < distance_to_day_15 w'
      ∨ (distance_to_day_15 w = distance_to_day_15 w' ∧ w ≤ w').

Definition latest_before (calendar : list date) (t d : date) : Prop :=
  d ∈ calendar ∧ d < t ∧ ∀ d', d' ∈ calendar → d' < t → d' ≤ d.

Definition earliest_after (calendar : list date) (t d : date) : Prop :=
  d ∈ calendar ∧ t < d ∧ ∀ d', d' ∈ calendar → t < d' → d ≤ d'.

Definition earliest_from (calendar : list date) (t d : date) : Prop :=
  d ∈ calendar ∧ t ≤ d ∧ ∀ d', d' ∈ calendar → t ≤ d' → d ≤ d'.

(** The earliest date on or after [t] among the dates of the calendar
    that fall in month [m] of year [y]. *)
Definition earliest_in_month_from
    (calendar : list date) (m y : Z) (t d : date) : Prop :=
  d ∈ calendar ∧ in_month m y d ∧ t ≤ d
  ∧ ∀ d', d' ∈ calendar → in_month m y d' → t ≤ d' → d ≤ d'.

(** The five recognized convention selectors. *)
Definition METODOS : list string :=
  ["prim_du"; "ult_du"; "terceira_sexta"; "quarta_prox_quinze"; "dia_15"].

(** The twelve month letters. *)
Definition MONTH_LETTERS : list string :=
  ["F"; "G"; "H"; "J"; "K"; "M"; "N"; "Q"; "U"; "V"; "X"; "Z"].

Definition first_letter_recognized (code : string) : Prop :=
  ∃ k, str_first code = Some k ∧ k ∈ MONTH_LETTERS.

(** The text is exactly two decimal digits. *)
Definition two_digits (s : string) : bool :=
  match s with
  | String a (String b EmptyString) =>
      bool_decide (is_Some (digit_value a)) && bool_decide (is_Some (digit_value b))
  | _ => false
  end.

(** A contract code the resolvers cannot turn into a month and a year:
    its first character is not a month letter, or ["20"] followed by its
    remainder is not an integer literal. *)
Definition bad_ticker (code : string) : Prop :=
  ¬ first_letter_recognized code
  ∨ int_of_str ("20" +:+ str_rest code) = None.


(** The earliest, and the latest, date of a calendar within month [m] of
    year [y]. *)
Definition first_in_month (calendar : list date) (m y : Z) (d : date) : Prop :=
  d ∈ calendar ∧ in_month m y d
  ∧ ∀ d', d' ∈ calendar → in_month m y d' → d ≤ d'.

Definition last_in_month (calendar : list date) (m y : Z) (d : date) : Prop :=
  d ∈ calendar ∧ in_month m y d
  ∧ ∀ d', d' ∈ calendar → in_month m y d' → d' ≤ d.

(** The resolver each recognized selector dispatches to. *)
Definition resolver_of (metodo_venc : string)
    : option (list date → pyval → pyval → result date) :=
  if decide (metodo_venc = "prim_du") then Some get_first_du_month
  else if decide (metodo_venc = "ult_du") then Some get_last_du_month
  else if decide (metodo_venc = "terceira_sexta")
       then Some get_third_friday_du_month
  else if decide (metodo_venc = "quarta_prox_quinze")
       then Some get_wednesday_closest_fifteen
  else if decide (metodo_venc = "dia_15") then Some get_fifteen
  else None.

(** The month and year written in a code made of a month letter and two
    decimal digits. *)
Definition ticker_month_year (code : string) : option (Z * Z) :=
  match code with
  | String l (String a (String b EmptyString)) =>
      m ← MONTH_CODES !! String l EmptyString;
      da ← digit_value a;
      db ← digit_value b;
      Some (m, 2000 + 10 * da + db)
  | _ => None
  end.

(** The first row on which [f] raises, with its exception: every row
    before it succeeds. *)
Definition first_failure {A B} (f : A → result B) (rows : list A)
    (i : nat) (e : pyerror) : Prop :=
  (∃ r, rows !! i = Some r ∧ f r = Raise e)
  ∧ ∀ j r, (j < i)%nat → rows !! j = Some r → ∃ v, f r = Ok v.

(** Executable checks of the calendar arithmetic, run over the window. *)
Definition ord2ymd_ok (d : date) : bool :=
  let '(y, m, dd) := ord2ymd d in
  (ymd2ord y m dd =? d) && (1 <=? m) && (m <=? 12)
  && (1990 <=? y) && (y <=? 2070)
  && (1 <=? dd) && (dd <=? days_in_month y m).

Definition ymd2ord_ok (y m d : Z) : bool :=
  let n := ymd2ord y m d in
  let '(y', m', d') := ord2ymd n in
  (y' =? y) && (m' =? m) && (d' =? d) && (start_date <=? n) && (n <? end_date).

(** * Properties *)

(** ** The calendar-day range *)

Lemma days_from_seqZ s n : days_from s n = seqZ s (Z.of_nat n).
Proof.
  revert s. induction n as [|n IH]; intros s; [done|].
  rewrite seqZ_cons by lia. cbn [days_from]. rewrite IH.
  f_equal. f_equal; lia.
Qed.

Lemma date_range_seqZ s e : date_range s e = seqZ s (e - s + 1).
Proof.
  unfold date_range. rewrite days_from_seqZ.
  destruct (decide (0 ≤ e - s + 1)).
  - by rewrite Z2Nat.id.
  - rewrite !seqZ_nil; [done|lia|]. rewrite Z2Nat.nonpos; lia.
Qed.

Lemma start_date_eq : start_date = 726468.
Proof. reflexivity. Qed.

Lemma end_date_eq : end_date = 755688.
Proof. reflexivity. Qed.

Lemma DCS_DF_seqZ : DCS_DF = seqZ 726468 29221.
Proof. unfold DCS_DF. by rewrite date_range_seqZ, start_date_eq, end_date_eq. Qed.

Lemma elem_of_DCS_DF d : d ∈ DCS_DF ↔ start_date ≤ d ≤ end_date.
Proof.
  rewrite DCS_DF_seqZ, elem_of_seqZ, start_date_eq, end_date_eq. lia.
Qed.

Lemma NoDup_DCS_DF : NoDup DCS_DF.
Proof. rewrite DCS_DF_seqZ. apply NoDup_seqZ. Qed.

Lemma filter_none {A} (P : A → Prop) `{∀ x, Decision (P x)} (l : list A) :
  Forall (λ x, ¬ P x) l → filter P l = [].
Proof.
  induction 1 as [|x l Hx _ IH]; [done|]. by rewrite filter_cons_False.
Qed.

Lemma filter_all {A} (P : A → Prop) `{∀ x, Decision (P x)} (l : list A) :
  Forall P l → filter P l = l.
Proof.
  induction 1 as [|x l Hx _ IH]; [done|]. rewrite filter_cons_True by done.
  by rewrite IH.
Qed.

(** Selecting from a run of consecutive days by a mask that describes a
    sub-interval yields that sub-interval. *)
Lemma filter_seqZ_interval (P : Z → Prop) `{∀ x, Decision (P x)} s n a len :
  0 ≤ len → s ≤ a → a + len ≤ s + n →
  (∀ x, s ≤ x < s + n → P x ↔ a ≤ x < a + len) →
  filter P (seqZ s n) = seqZ a len.
Proof.
  intros Hlen Hsa Han HP.
  replace n with ((a - s) + (len + (s + n - a - len))) by lia.
  rewrite !seqZ_app by lia. rewrite !filter_app.
  replace (s + (a - s)) with a by lia.
  rewrite (filter_none P (seqZ s _)), (filter_all P (seqZ a len)),
    (filter_none P (seqZ (a + len) _)).
  - by rewrite app_nil_r.
  - apply Forall_seqZ. intros x Hx. rewrite HP; lia.
  - apply Forall_seqZ. intros x Hx. rewrite HP; lia.
  - apply Forall_seqZ. intros x Hx. rewrite HP; lia.
Qed.

(** ** Day counts *)

Lemma length_filter_count (calendar : list Z) (P : Z → Prop)
    `{∀ x, Decision (P x)} :
  NoDup calendar →
  length (filter P calendar) = size (filter P (list_to_set calendar : gset Z)).
Proof.
  intros Hnd.
  rewrite <-(size_list_to_set (C:=gset Z)) by by apply NoDup_filter.
  f_equal. apply set_eq. intros x.
  rewrite elem_of_filter, !elem_of_list_to_set, list_elem_of_filter. done.
Qed.

Lemma filter_empty_interval (calendar : list Z) a b :
  b ≤ a → filter (λ d, a < d ∧ d ≤ b) calendar = [].
Proof.
  intros Hba. apply filter_none, Forall_forall. intros x _. lia.
Qed.

Lemma calc_dc_within a b :
  start_date - 1 ≤ a → a ≤ b → b ≤ end_date →
  Z.of_nat (calc_dc a b) = b - a.
Proof.
  rewrite start_date_eq, end_date_eq. intros Ha Hab Hb.
  unfold calc_dc. rewrite DCS_DF_seqZ.
  rewrite (filter_seqZ_interval _ _ _ (a + 1) (b - a)) by lia.
  rewrite length_seqZ. lia.
Qed.

(** C4.  [calc_du] counts the dates of the business calendar in the
    interval (start, end], [calc_dc] counts the dates of the all-days
    calendar in that interval, and both are 0 when end <= start.  The
    business calendar is free of duplicates, as an index of trading days
    is. *)
Theorem calc_du_calc_dc_count (DUS_DF : list date) (dia_1 dia_n : date) :
  NoDup DUS_DF →
  calc_du DUS_DF dia_1 dia_n = count_between DUS_DF dia_1 dia_n
  ∧ calc_dc dia_1 dia_n = count_between DCS_DF dia_1 dia_n
  ∧ (dia_n ≤ dia_1 →
     calc_du DUS_DF dia_1 dia_n = 0%nat ∧ calc_dc dia_1 dia_n = 0%nat).
Proof.
  intros Hnd. unfold calc_du, calc_dc, count_between. split_and!.
  - by apply length_filter_count.
  - apply length_filter_count, NoDup_DCS_DF.
  - intros Hle. by rewrite !filter_empty_interval.
Qed.

(** C9.  For start < end the calendar-day count is at least the
    business-day count, for a business calendar without duplicates whose
    dates all belong to the all-days calendar. *)
Theorem calc_dc_ge_calc_du (DUS_DF : list date) (dia_1 dia_n : date) :
  NoDup DUS_DF → DUS_DF ⊆ DCS_DF →
  dia_1 < dia_n →
  (calc_du DUS_DF dia_1 dia_n ≤ calc_dc dia_1 dia_n)%nat.
Proof.
  intros Hnd Hsub _. unfold calc_du, calc_dc.
  apply submseteq_length, NoDup_submseteq.
  - by apply NoDup_filter.
  - intros x. rewrite !list_elem_of_filter. intros [? ?]. split; [done|].
    by apply Hsub.
Qed.

(** C10.  For start <= end, both inside the horizon
    [1990-01-01, 2070-01-01), [calc_dc] is the difference end - start in
    whole days. *)
Theorem calc_dc_exact (dia_1 dia_n : date) :
  in_horizon dia_1 → in_horizon dia_n → dia_1 ≤ dia_n →
  Z.of_nat (calc_dc dia_1 dia_n) = dia_n - dia_1.
Proof.
  unfold in_horizon. intros H1 Hn Hle. apply calc_dc_within; lia.
Qed.

(** ** Ordered indexes *)

Lemma ascending_seqZ s n : ascending (seqZ s n).
Proof.
  destruct (decide (0 ≤ n)) as [Hn|Hn].
  - rewrite <-(Z2Nat.id n) by done. clear Hn. revert s.
    induction (Z.to_nat n) as [|k IH]; intros s.
    + rewrite seqZ_nil by lia. constructor.
    + rewrite seqZ_cons by lia. constructor.
      * replace (Z.pred (Z.of_nat (S k))) with (Z.of_nat k) by lia. apply IH.
      * apply Forall_seqZ. lia.
  - rewrite seqZ_nil by lia. constructor.
Qed.

Lemma ascending_filter (P : Z → Prop) `{∀ x, Decision (P x)} l :
  ascending l → ascending (filter P l).
Proof.
  unfold ascending. induction 1 as [|x l Hl IH Hx]; [constructor|].
  rewrite filter_cons. destruct (decide (P x)); [|done].
  constructor; [done|].
  apply Forall_forall. intros z [_ Hz]%list_elem_of_filter.
  by eapply Forall_forall in Hx.
Qed.

Lemma ascending_NoDup l : ascending l → NoDup l.
Proof.
  induction 1 as [|x l Hl IH Hx]; constructor; [|done].
  intros Hin. eapply Forall_forall in Hx; [|done]. lia.
Qed.

Lemma ascending_DCS_DF : ascending DCS_DF.
Proof. rewrite DCS_DF_seqZ. apply ascending_seqZ. Qed.

(** In an ascending index the first selected row is the least one. *)
Lemma head_filter_least (P : Z → Prop) `{∀ x, Decision (P x)} l x :
  ascending l →
  head (filter P l) = Some x →
  x ∈ l ∧ P x ∧ ∀ z, z ∈ l → P z → x ≤ z.
Proof.
  intros Hl Hhd.
  pose proof (head_Some_elem_of _ _ Hhd) as [HPx Hxl]%list_elem_of_filter.
  split_and!; [done..|]. intros z Hz HPz.
  apply head_filter_Some in Hhd as (l1 & l2 & -> & Hl1).
  apply elem_of_app in Hz as [Hz|Hz].
  - by eapply Forall_forall in Hl1.
  - apply StronglySorted_app_1_r in Hl.
    apply elem_of_cons in Hz as [->|Hz]; [lia|].
    apply StronglySorted_inv in Hl as [_ Hx].
    eapply Forall_forall in Hx; [|done]. lia.
Qed.

(** ... and the last selected row is the greatest one. *)
Lemma last_filter_greatest (P : Z → Prop) `{∀ x, Decision (P x)} l x :
  ascending l →
  last (filter P l) = Some x →
  x ∈ l ∧ P x ∧ ∀ z, z ∈ l → P z → z ≤ x.
Proof.
  intros Hl Hla.
  pose proof (last_Some_elem_of _ _ Hla) as [HPx Hxl]%list_elem_of_filter.
  split_and!; [done..|]. intros z Hz HPz.
  apply last_filter_Some in Hla as (l1 & l2 & -> & Hl2).
  apply elem_of_app in Hz as [Hz|Hz].
  - assert (z < x); [|lia].
    eapply (StronglySorted_app_1_elem_of _ _ _ _ _ Hl); [done|]. by left.
  - apply elem_of_cons in Hz as [->|Hz]; [lia|].
    by eapply Forall_forall in Hl2.
Qed.

Lemma head_filter_is_Some {A} (P : A → Prop) `{∀ x, Decision (P x)} l x :
  x ∈ l → P x → is_Some (head (filter P l)).
Proof.
  intros Hx HPx. apply head_is_Some. intros Hnil.
  by eapply filter_nil_not_elem_of.
Qed.

Lemma last_filter_is_Some {A} (P : A → Prop) `{∀ x, Decision (P x)} l x :
  x ∈ l → P x → is_Some (last (filter P l)).
Proof.
  intros Hx HPx. apply last_is_Some. intros Hnil.
  by eapply filter_nil_not_elem_of.
Qed.

Lemma iloc_0 {A} (l : list A) :
  iloc l 0 = match head l with Some x => Ok x | None => Raise IndexError end.
Proof. unfold iloc. by rewrite head_lookup. Qed.

Lemma iloc_0_least (P : Z → Prop) `{∀ x, Decision (P x)} l x :
  ascending l →
  x ∈ l → P x → (∀ z, z ∈ l → P z → x ≤ z) →
  iloc (filter P l) 0 = Ok x.
Proof.
  intros Hl Hx HPx Hmin. rewrite iloc_0.
  destruct (head_filter_is_Some P l x Hx HPx) as [x' Hhd]. rewrite Hhd.
  apply head_filter_least in Hhd as (Hx' & HPx' & Hmin'); [|done].
  f_equal. specialize (Hmin _ Hx' HPx'). specialize (Hmin' _ Hx HPx). lia.
Qed.

Lemma iloc_last_greatest (P : Z → Prop) `{∀ x, Decision (P x)} l x :
  ascending l →
  x ∈ l → P x → (∀ z, z ∈ l → P z → z ≤ x) →
  iloc_last (filter P l) = Ok x.
Proof.
  intros Hl Hx HPx Hmax. unfold iloc_last.
  destruct (last_filter_is_Some P l x Hx HPx) as [x' Hla]. rewrite Hla.
  apply last_filter_greatest in Hla as (Hx' & HPx' & Hmax'); [|done].
  f_equal. specialize (Hmax _ Hx' HPx'). specialize (Hmax' _ Hx HPx). lia.
Qed.

Lemma iloc_Ok_elem_of {A} (l : list A) i x : iloc l i = Ok x → x ∈ l.
Proof.
  unfold iloc. destruct (l !! i) eqn:Hi; [|done].
  intros [= ->]. by eapply list_elem_of_lookup_2.
Qed.

Lemma iloc_last_Ok_elem_of {A} (l : list A) x : iloc_last l = Ok x → x ∈ l.
Proof.
  unfold iloc_last. destruct (last l) eqn:Hl; [|done].
  intros [= ->]. by apply last_Some_elem_of.
Qed.

(** The rows before position [i] of an ascending index are exactly the
    rows below its [i]-th entry. *)
Lemma filter_lt_lookup l i x :
  ascending l → l !! i = Some x → filter (λ d, d < x) l = take i l.
Proof.
  intros Hl Hi. rewrite <-(take_drop_middle l i x Hi) at 1.
  rewrite <-(take_drop_middle l i x Hi) in Hl.
  rewrite filter_app, filter_all, filter_none; [by rewrite app_nil_r|..].
  - apply StronglySorted_app_1_r in Hl.
    apply StronglySorted_inv in Hl as [_ Hx].
    constructor; [lia|]. eapply Forall_impl; [done|]. simpl. lia.
  - apply Forall_forall. intros z Hz.
    eapply (StronglySorted_app_1_elem_of _ _ _ _ _ Hl); [done|]. by left.
Qed.

(** ** Running a resolver *)

Lemma bind_Ok_inv {A B} (r : result A) (k : A → result B) b :
  r ≫= k = Ok b → ∃ a, r = Ok a ∧ k a = Ok b.
Proof. destruct r as [a|e]; [|done]. intros Hk. by exists a. Qed.

Lemma get_third_friday_du_month_int DUS_DF m y :
  get_third_friday_du_month DUS_DF (PyInt m) (PyInt y) =
    third_friday ← iloc (fridays_in_window m y) 2;
    if decide (third_friday ∉ DUS_DF)
    then iloc_last (filter (λ d, d < third_friday) DUS_DF)
    else Ok third_friday.
Proof.
  unfold get_third_friday_du_month, fridays_in_window.
  cbn [py_int mbind result_bind]. by rewrite list_filter_filter.
Qed.

Lemma get_wednesday_closest_fifteen_int DUS_DF m y :
  get_wednesday_closest_fifteen DUS_DF (PyInt m) (PyInt y) =
    closest_wednesday ←
      iloc (sort_values dist_fifteen (wednesdays_in_window m y)) 0;
    if decide (closest_wednesday ∉ DUS_DF)
    then iloc (filter (λ d, closest_wednesday < d) DUS_DF) 0
    else Ok closest_wednesday.
Proof.
  unfold get_wednesday_closest_fifteen, wednesdays_in_window.
  cbn [py_int mbind result_bind]. by rewrite list_filter_filter.
Qed.

(** ** Results are business days *)

(** C8.  Whenever [get_third_friday_du_month] or
    [get_wednesday_closest_fifteen] returns a date, that date belongs to
    the business calendar. *)
Theorem adjusted_results_are_business_days
    (DUS_DF : list date) (month year : pyval) (d : date) :
  get_third_friday_du_month DUS_DF month year = Ok d
  ∨ get_wednesday_closest_fifteen DUS_DF month year = Ok d →
  d ∈ DUS_DF.
Proof.
  intros [Hr|Hr].
  - unfold get_third_friday_du_month in Hr.
    apply bind_Ok_inv in Hr as (m & _ & Hr).
    apply bind_Ok_inv in Hr as (y & _ & Hr).
    apply bind_Ok_inv in Hr as (tf & _ & Hr).
    destruct (decide (tf ∉ DUS_DF)) as [Hout|Hin].
    + apply iloc_last_Ok_elem_of, list_elem_of_filter in Hr. tauto.
    + injection Hr as <-. by apply dec_stable.
  - unfold get_wednesday_closest_fifteen in Hr.
    apply bind_Ok_inv in Hr as (m & _ & Hr).
    apply bind_Ok_inv in Hr as (y & _ & Hr).
    apply bind_Ok_inv in Hr as (w & _ & Hr).
    destruct (decide (w ∉ DUS_DF)) as [Hout|Hin].
    + apply iloc_Ok_elem_of, list_elem_of_filter in Hr. tauto.
    + injection Hr as <-. by apply dec_stable.
Qed.

(** ** The third Friday *)

Lemma ascending_fridays m y : ascending (fridays_in_window m y).
Proof. apply ascending_filter, ascending_DCS_DF. Qed.

Lemma third_friday_lookup m y tf :
  fridays_in_window m y !! 2%nat = Some tf → is_third_friday m y tf.
Proof.
  intros Hi. split; [by eapply list_elem_of_lookup_2|].
  rewrite (filter_lt_lookup _ 2 tf (ascending_fridays m y) Hi).
  apply lookup_lt_Some in Hi. rewrite length_take. lia.
Qed.

(** C1.  When the calendar window holds at least three Fridays of the
    month, [get_third_friday_du_month] returns the third of them if it is
    a business day, and otherwise the latest business day strictly before
    it.  The business calendar is in ascending order. *)
Theorem get_third_friday_du_month_spec (DUS_DF : list date) (month year : Z) :
  ascending DUS_DF →
  (3 ≤ length (fridays_in_window month year))%nat →
  ∃ tf, is_third_friday month year tf
    ∧ (tf ∈ DUS_DF →
       get_third_friday_du_month DUS_DF (PyInt month) (PyInt year) = Ok tf)
    ∧ (tf ∉ DUS_DF → ∀ d, latest_before DUS_DF tf d →
       get_third_friday_du_month DUS_DF (PyInt month) (PyInt year) = Ok d).
Proof.
  intros Hasc Hlen.
  destruct (lookup_lt_is_Some_2 (fridays_in_window month year) 2) as [tf Htf];
    [lia|].
  exists tf. split; [by apply third_friday_lookup|].
  rewrite get_third_friday_du_month_int. unfold iloc. rewrite Htf.
  cbn [mbind result_bind]. fold (@iloc_last Z). split.
  - intros Hin. by destruct (decide (tf ∉ DUS_DF)).
  - intros Hout d (Hd & Hlt & Hmax).
    destruct (decide (tf ∉ DUS_DF)); [|done].
    by apply iloc_last_greatest.
Qed.

(** ** Sorting by a key *)

Lemma sort_insert_Permutation {A} (key : A → Z) x l :
  sort_insert key x l ≡ₚ x :: l.
Proof.
  induction l as [|y l IH]; [done|]. cbn [sort_insert].
  destruct (key x <=? key y); [done|]. rewrite IH. apply Permutation_swap.
Qed.

Lemma sort_values_Permutation {A} (key : A → Z) l : sort_values key l ≡ₚ l.
Proof.
  induction l as [|x l IH]; [done|]. cbn [sort_values].
  by rewrite sort_insert_Permutation, IH.
Qed.

Lemma head_sort_insert {A} (key : A → Z) x l :
  head (sort_insert key x l) =
    match head l with
    | Some h => if key x <=? key h then Some x else Some h
    | None => Some x
    end.
Proof. destruct l as [|y l]; [done|]. cbn. by destruct (key x <=? key y). Qed.

(** The first row after sorting is the first row of least key: every row
    before it has a greater key, every row after it a key at least as
    large. *)
Lemma head_sort_values {A} (key : A → Z) l w :
  head (sort_values key l) = Some w →
  ∃ l1 l2, l = l1 ++ w :: l2
    ∧ Forall (λ z, key w < key z) l1
    ∧ Forall (λ z, key w ≤ key z) l2.
Proof.
  revert w. induction l as [|x l IH]; intros w; [done|].
  cbn [sort_values]. rewrite head_sort_insert.
  destruct (head (sort_values key l)) as [h|] eqn:Hh.
  - destruct (IH h eq_refl) as (l1 & l2 & -> & Hl1 & Hl2).
    destruct (Z.leb_spec (key x) (key h)); intros [= <-].
    + exists [], (l1 ++ h :: l2). split_and!; [done|constructor|].
      apply Forall_app. split.
      * eapply Forall_impl; [done|]. simpl. lia.
      * constructor; [lia|]. eapply Forall_impl; [done|]. simpl. lia.
    + exists (x :: l1), l2. split_and!; [done| |done].
      by constructor; [lia|].
  - intros [= <-]. apply head_None in Hh.
    pose proof (sort_values_Permutation key l) as Hp. rewrite Hh in Hp.
    apply Permutation_nil in Hp as ->.
    exists [], []. by split_and!.
Qed.

Lemma head_sort_values_is_Some {A} (key : A → Z) l :
  l ≠ [] → is_Some (head (sort_values key l)).
Proof.
  intros Hl. apply head_is_Some. intros Hnil.
  pose proof (sort_values_Permutation key l) as Hp. rewrite Hnil in Hp.
  by apply Permutation_nil in Hp.
Qed.

(** On an ascending index the first row after sorting by a key is the
    earliest date of least key. *)
Lemma head_sort_values_ascending (key : Z → Z) l w :
  ascending l →
  head (sort_values key l) = Some w →
  w ∈ l ∧ ∀ w', w' ∈ l → key w < key w' ∨ (key w = key w' ∧ w ≤ w').
Proof.
  intros Hl (l1 & l2 & -> & Hl1 & Hl2)%head_sort_values.
  split; [set_solver|]. intros w' Hw'.
  apply elem_of_app in Hw' as [Hw'|Hw'].
  - left. by eapply Forall_forall in Hl1.
  - apply elem_of_cons in Hw' as [->|Hw']; [right; lia|].
    apply StronglySorted_app_1_r, StronglySorted_inv in Hl as [_ Hw].
    eapply Forall_forall in Hl2; [|done].
    eapply Forall_forall in Hw; [|done]. lia.
Qed.

(** ** The calendar inside the window *)

(** Every day of the window decomposes into a valid (year, month, day)
    that composes back to it. *)
Lemma ord2ymd_window_check : forallb ord2ymd_ok DCS_DF = true.
Proof. vm_compute. reflexivity. Qed.

Lemma ord2ymd_window d :
  d ∈ DCS_DF →
  ymd2ord (year_of d) (month_of d) (day_of d) = d
  ∧ 1 ≤ month_of d ≤ 12
  ∧ 1990 ≤ year_of d ≤ 2070
  ∧ 1 ≤ day_of d ≤ days_in_month (year_of d) (month_of d).
Proof.
  intros Hd%list_elem_of_In.
  pose proof (proj1 (forallb_forall _ _) ord2ymd_window_check d Hd) as Hok.
  unfold ord2ymd_ok, year_of, month_of, day_of in *.
  destruct (ord2ymd d) as [[y m] dd]. cbn [fst snd].
  repeat (apply andb_prop in Hok as [Hok ?]). lia.
Qed.

(** Every day of the months from 1990-01 to 2069-12 lies in the window
    and decomposes into its year, month and day. *)
Lemma ymd2ord_window_check :
  forallb (λ y, forallb (λ m,
      forallb (ymd2ord_ok y m) (seqZ 1 (days_in_month y m)))
    (seqZ 1 12)) (seqZ 1990 80) = true.
Proof. vm_compute. reflexivity. Qed.

Lemma days_in_month_bounds y m : 1 ≤ m ≤ 12 → 28 ≤ days_in_month y m ≤ 31.
Proof.
  intros Hm. unfold days_in_month.
  destruct ((m =? 2) && is_leap y); [lia|].
  assert (m ∈ seqZ 1 12) as Hin by (apply elem_of_seqZ; lia).
  revert Hin. generalize m. apply Forall_forall. compute_done.
Qed.

Lemma ymd2ord_ord2ymd y m d :
  1990 ≤ y ≤ 2069 → 1 ≤ m ≤ 12 → 1 ≤ d ≤ days_in_month y m →
  ord2ymd (ymd2ord y m d) = (y, m, d)
  ∧ start_date ≤ ymd2ord y m d < end_date.
Proof.
  intros Hy Hm Hd. pose proof ymd2ord_window_check as Hw.
  rewrite forallb_forall in Hw.
  specialize (Hw y). rewrite <-list_elem_of_In, elem_of_seqZ in Hw.
  specialize (Hw ltac:(lia)). rewrite forallb_forall in Hw.
  specialize (Hw m). rewrite <-list_elem_of_In, elem_of_seqZ in Hw.
  specialize (Hw ltac:(lia)). rewrite forallb_forall in Hw.
  specialize (Hw d). rewrite <-list_elem_of_In, elem_of_seqZ in Hw.
  specialize (Hw ltac:(lia)). unfold ymd2ord_ok in Hw.
  destruct (ord2ymd (ymd2ord y m d)) as [[y' m'] d'].
  repeat (apply andb_prop in Hw as [Hw ?]).
  split; [f_equal; [f_equal|]; lia|lia].
Qed.

Lemma ymd2ord_day y m d : ymd2ord y m d = ymd2ord y m 1 + (d - 1).
Proof. unfold ymd2ord. lia. Qed.

(** The rows of one month of the window are the consecutive days from
    its first to its last. *)
Lemma in_month_window m y :
  1 ≤ m ≤ 12 → 1990 ≤ y ≤ 2069 →
  filter (in_month m y) DCS_DF = seqZ (ymd2ord y m 1) (days_in_month y m).
Proof.
  intros Hm Hy. pose proof (days_in_month_bounds y m Hm) as Hlen.
  destruct (ymd2ord_ord2ymd y m 1) as [_ Hlo]; [done|done|lia|].
  destruct (ymd2ord_ord2ymd y m (days_in_month y m)) as [_ Hhi];
    [done|done|lia|].
  rewrite ymd2ord_day in Hhi. rewrite start_date_eq, end_date_eq in Hlo, Hhi.
  rewrite DCS_DF_seqZ. apply filter_seqZ_interval; [lia..|].
  intros d Hd. split.
  - intros [Hmo Hye].
    destruct (ord2ymd_window d) as (Hrt & _ & _ & Hday).
    { rewrite DCS_DF_seqZ. by apply elem_of_seqZ. }
    rewrite Hmo, Hye in Hrt, Hday.
    rewrite ymd2ord_day in Hrt. lia.
  - intros Hin.
    destruct (ymd2ord_ord2ymd y m (d - ymd2ord y m 1 + 1)) as [Hrt _];
      [done|done|lia|].
    rewrite ymd2ord_day in Hrt.
    replace (ymd2ord y m 1 + (d - ymd2ord y m 1 + 1 - 1)) with d in Hrt by lia.
    unfold in_month, month_of, year_of. by rewrite Hrt.
Qed.

Lemma day_of_in_month m y d :
  1 ≤ m ≤ 12 → 1990 ≤ y ≤ 2069 →
  ymd2ord y m 1 ≤ d < ymd2ord y m 1 + days_in_month y m →
  in_month m y d ∧ day_of d = d - ymd2ord y m 1 + 1 ∧ d ∈ DCS_DF.
Proof.
  intros Hm Hy Hd.
  destruct (ymd2ord_ord2ymd y m (d - ymd2ord y m 1 + 1)) as [Hrt Hin];
    [done|done|lia|].
  rewrite ymd2ord_day in Hrt, Hin.
  replace (ymd2ord y m 1 + (d - ymd2ord y m 1 + 1 - 1)) with d in Hrt, Hin
    by lia.
  unfold in_month, month_of, year_of, day_of. rewrite Hrt.
  split_and!; [done..|]. apply elem_of_DCS_DF. lia.
Qed.

(** ** The Wednesday closest to day 15 *)

Lemma ascending_wednesdays m y : ascending (wednesdays_in_window m y).
Proof. apply ascending_filter, ascending_DCS_DF. Qed.

(** The sort key of the code is the distance to day 15. *)
Lemma dist_fifteen_distance d : dist_fifteen d = distance_to_day_15 d.
Proof. unfold dist_fifteen, distance_to_day_15. lia. Qed.

Lemma closest_wednesday_key m y w :
  (w ∈ wednesdays_in_window m y
   ∧ ∀ w', w' ∈ wednesdays_in_window m y →
       dist_fifteen w < dist_fifteen w'
       ∨ (dist_fifteen w = dist_fifteen w' ∧ w ≤ w'))
  ↔ is_closest_wednesday m y w.
Proof.
  unfold is_closest_wednesday.
  split; intros [Hin Hmin]; (split; [done|]); intros w' Hw';
    specialize (Hmin w' Hw'); rewrite !dist_fifteen_distance in *; done.
Qed.

Lemma elem_of_wednesdays m y w :
  1 ≤ m ≤ 12 → 1990 ≤ y ≤ 2069 →
  w ∈ wednesdays_in_window m y ↔
    weekday w = 2
    ∧ ymd2ord y m 1 ≤ w < ymd2ord y m 1 + days_in_month y m.
Proof.
  intros Hm Hy. unfold wednesdays_in_window.
  rewrite <-list_filter_filter, list_elem_of_filter, in_month_window by done.
  rewrite elem_of_seqZ. tauto.
Qed.


(** Every month of the window has a Wednesday among its days 12 to 18. *)
Lemma wednesday_near_fifteen m y :
  1 ≤ m ≤ 12 → 1990 ≤ y ≤ 2069 →
  ∃ w, w ∈ wednesdays_in_window m y ∧ dist_fifteen w ≤ 3.
Proof.
  intros Hm Hy. pose proof (days_in_month_bounds y m Hm) as Hlen.
  set (f := ymd2ord y m 1) in *.
  exists (f + 11 + (3 - (f + 11)) mod 7).
  assert (f ≤ f + 11 + (3 - (f + 11)) mod 7 < f + days_in_month y m) as Hin
    by (pose proof (Z.mod_pos_bound (3 - (f + 11)) 7); lia).
  split.
  - apply elem_of_wednesdays; [done..|]. split; [|done].
    unfold weekday. rewrite <-Z.add_assoc, (Z.add_comm _ 6), Z.add_assoc.
    rewrite Zplus_mod_idemp_r.
    replace (f + 11 + 6 + (3 - (f + 11))) with (2 + 1 * 7) by lia.
    by rewrite Z_mod_plus_full.
  - unfold dist_fifteen.
    destruct (day_of_in_month m y _ Hm Hy Hin) as (_ & -> & _).
    pose proof (Z.mod_pos_bound (3 - (f + 11)) 7). lia.
Qed.

(** C3.  For a month of the horizon, [get_wednesday_closest_fifteen]
    picks, among the Wednesdays of the month, the one at the least
    distance from day 15, the earliest one on a tie; it returns that
    Wednesday if it is a business day and otherwise the earliest business
    day strictly after it.  The business calendar is in ascending order. *)
Theorem get_wednesday_closest_fifteen_spec
    (DUS_DF : list date) (month year : Z) :
  ascending DUS_DF →
  1 ≤ month ≤ 12 → 1990 ≤ year ≤ 2069 →
  ∃ w, is_closest_wednesday month year w
    ∧ (w ∈ DUS_DF →
       get_wednesday_closest_fifteen DUS_DF (PyInt month) (PyInt year) = Ok w)
    ∧ (w ∉ DUS_DF → ∀ d, earliest_after DUS_DF w d →
       get_wednesday_closest_fifteen DUS_DF (PyInt month) (PyInt year) = Ok d).
Proof.
  intros Hasc Hm Hy.
  destruct (wednesday_near_fifteen month year Hm Hy) as (w0 & Hw0 & _).
  destruct (head_sort_values_is_Some dist_fifteen
              (wednesdays_in_window month year)) as [w Hw].
  { intros Hnil. rewrite Hnil in Hw0. by apply not_elem_of_nil in Hw0. }
  exists w. split.
  { apply closest_wednesday_key.
    by apply head_sort_values_ascending; [apply ascending_wednesdays|]. }
  rewrite get_wednesday_closest_fifteen_int, iloc_0, Hw.
  cbn [mbind result_bind]. split.
  - intros Hin. by destruct (decide (w ∉ DUS_DF)).
  - intros Hout d (Hd & Hlt & Hmin).
    destruct (decide (w ∉ DUS_DF)); [|done].
    by apply iloc_0_least.
Qed.

(** The closest Wednesday is in fact strictly closer than every other
    Wednesday of the month, so the choice does not depend on how the sort
    orders rows of equal distance. *)
Lemma closest_wednesday_strict m y w w' :
  1 ≤ m ≤ 12 → 1990 ≤ y ≤ 2069 →
  is_closest_wednesday m y w →
  w' ∈ wednesdays_in_window m y → w' ≠ w →
  dist_fifteen w < dist_fifteen w'.
Proof.
  intros Hm Hy [Hw Hmin]%closest_wednesday_key Hw' Hne.
  destruct (Hmin w' Hw') as [Hlt|[Heq Hle]]; [done|]. exfalso.
  destruct (wednesday_near_fifteen m y Hm Hy) as (w0 & Hw0 & Hd0).
  assert (dist_fifteen w ≤ 3) as Hd by (destruct (Hmin w0 Hw0); lia).
  apply elem_of_wednesdays in Hw as [Hwd Hin]; [|done..].
  apply elem_of_wednesdays in Hw' as [Hwd' Hin']; [|done..].
  destruct (day_of_in_month m y w Hm Hy Hin) as (_ & Hday & _).
  destruct (day_of_in_month m y w' Hm Hy Hin') as (_ & Hday' & _).
  unfold dist_fifteen, weekday in *. rewrite Hday in Heq, Hd.
  rewrite Hday' in Heq.
  pose proof (Z.div_mod (w + 6) 7 ltac:(lia)).
  pose proof (Z.div_mod (w' + 6) 7 ltac:(lia)). lia.
Qed.

(** Any ordering of the Wednesdays by distance, whatever it does with
    equal keys, has the same first row as [sort_values]. *)
Lemma closest_wednesday_any_sort m y l :
  1 ≤ m ≤ 12 → 1990 ≤ y ≤ 2069 →
  l ≡ₚ wednesdays_in_window m y →
  StronglySorted (λ a b, dist_fifteen a ≤ dist_fifteen b) l →
  head l = head (sort_values dist_fifteen (wednesdays_in_window m y)).
Proof.
  intros Hm Hy Hperm Hsorted.
  destruct (wednesday_near_fifteen m y Hm Hy) as (w0 & Hw0 & _).
  destruct (head_sort_values_is_Some dist_fifteen (wednesdays_in_window m y))
    as [w Hw].
  { intros Hnil. rewrite Hnil in Hw0. by apply not_elem_of_nil in Hw0. }
  rewrite Hw.
  pose proof (head_sort_values_ascending _ _ _ (ascending_wednesdays m y) Hw)
    as Hclosest.
  apply closest_wednesday_key in Hclosest.
  destruct l as [|x l].
  { apply Permutation_nil in Hperm. rewrite Hperm in Hw0.
    by apply not_elem_of_nil in Hw0. }
  cbn [head]. f_equal. destruct (decide (x = w)) as [|Hne]; [done|exfalso].
  assert (x ∈ wednesdays_in_window m y) as Hx by (rewrite <-Hperm; by left).
  pose proof (closest_wednesday_strict m y w x Hm Hy Hclosest Hx Hne) as Hlt.
  assert (w ∈ x :: l) as Hwl by (rewrite Hperm; apply Hclosest).
  apply StronglySorted_inv in Hsorted as [_ Hall].
  apply elem_of_cons in Hwl as [->|Hwl]; [done|].
  eapply Forall_forall in Hall; [|done]. simpl in Hall. lia.
Qed.

(** ** The fifteenth *)

Lemma parse_m_month m :
  1 ≤ m ≤ 12 →
  parse_m (py_str (if bool_decide (m < 10)
                   then PyStr ("0" +:+ py_str (PyInt m))
                   else PyInt m)) = Some m.
Proof.
  intros Hm. assert (m ∈ seqZ 1 12) as Hin by (apply elem_of_seqZ; lia).
  clear Hm. revert m Hin. apply Forall_forall. compute_done.
Qed.

Lemma parse_Y_year y : 1990 ≤ y ≤ 2069 → parse_Y (py_str (PyInt y)) = Some y.
Proof.
  intros Hy. assert (y ∈ seqZ 1990 80) as Hin by (apply elem_of_seqZ; lia).
  clear Hy. revert y Hin. apply Forall_forall. compute_done.
Qed.

Lemma get_fifteen_int DUS_DF m y :
  1 ≤ m ≤ 12 → 1990 ≤ y ≤ 2069 →
  get_fifteen DUS_DF (PyInt m) (PyInt y) =
    iloc (filter (λ d, ymd2ord y m 15 ≤ d ∧ in_month m y d) DUS_DF) 0.
Proof.
  intros Hm Hy. unfold get_fifteen.
  cbn [py_int py_lt_10 mbind result_bind]. unfold strptime_15.
  rewrite parse_m_month, parse_Y_year by done.
  destruct (Z.leb_spec 1 y); [|lia].
  cbn [mbind result_bind]. by rewrite list_filter_filter.
Qed.

Lemma fifteenth_in_month m y :
  1 ≤ m ≤ 12 → 1990 ≤ y ≤ 2069 → in_month m y (ymd2ord y m 15).
Proof.
  intros Hm Hy. pose proof (days_in_month_bounds y m Hm).
  destruct (ymd2ord_ord2ymd y m 15) as [Hrt _]; [done|done|lia|].
  unfold in_month, month_of, year_of. by rewrite Hrt.
Qed.

(** X19.  For a month of the horizon [get_fifteen]
    returns a date exactly when that date is the earliest business day on
    or after the 15th within the same month and year; in particular it
    returns the 15th whenever the 15th is a business day, and it raises
    [IndexError] when the month has no business day from the 15th on.
    The business calendar is in ascending order. *)
Theorem get_fifteen_spec (DUS_DF : list date) (month year : Z) :
  ascending DUS_DF →
  1 ≤ month ≤ 12 → 1990 ≤ year ≤ 2069 →
  (∀ d, get_fifteen DUS_DF (PyInt month) (PyInt year) = Ok d ↔
        earliest_in_month_from DUS_DF month year (ymd2ord year month 15) d)
  ∧ (ymd2ord year month 15 ∈ DUS_DF →
     get_fifteen DUS_DF (PyInt month) (PyInt year)
       = Ok (ymd2ord year month 15))
  ∧ ((∀ d, d ∈ DUS_DF → in_month month year d → d < ymd2ord year month 15) →
     get_fifteen DUS_DF (PyInt month) (PyInt year) = Raise IndexError).
Proof.
  intros Hasc Hm Hy. rewrite get_fifteen_int by done.
  set (dia_15 := ymd2ord year month 15).
  assert (∀ d, earliest_in_month_from DUS_DF month year dia_15 d →
    iloc (filter (λ d, dia_15 ≤ d ∧ in_month month year d) DUS_DF) 0 = Ok d)
    as Hback.
  { intros d (Hd & Hmo & Hle & Hmin).
    apply iloc_0_least; [done..|]. intros z Hz [? ?]. by apply Hmin. }
  split_and!.
  - intros d. split; [|by apply Hback].
    rewrite iloc_0.
    destruct (head _) as [x|] eqn:Hhd; [|done]. intros [= ->].
    apply head_filter_least in Hhd as (Hd & [Hle Hmo] & Hmin); [|done].
    split_and!; [done..|]. intros d' Hd' Hmo' Hle'. by apply Hmin.
  - intros Hin. apply Hback. split_and!; [done| |lia|by intros].
    by apply fifteenth_in_month.
  - intros Hnone. rewrite filter_none; [done|].
    apply Forall_forall. intros d Hd [Hle Hmo].
    specialize (Hnone d Hd Hmo). lia.
Qed.

Lemma in_month_range m y d :
  1 ≤ m ≤ 12 → 1990 ≤ y ≤ 2069 → d ∈ DCS_DF →
  in_month m y d ↔ ymd2ord y m 1 ≤ d < ymd2ord y m 1 + days_in_month y m.
Proof.
  intros Hm Hy Hd. rewrite <-elem_of_seqZ, <-in_month_window by done.
  rewrite list_elem_of_filter. tauto.
Qed.

(** X20.  When the month still has a business day on or after the 15th,
    as every month of an exchange calendar has, [get_fifteen] returns a
    date exactly when it is the earliest business day of the whole
    calendar on or after the 15th.  The business calendar is ascending
    and lies inside the all-days window. *)
Theorem get_fifteen_next_business_day (DUS_DF : list date) (month year : Z) :
  ascending DUS_DF → DUS_DF ⊆ DCS_DF →
  1 ≤ month ≤ 12 → 1990 ≤ year ≤ 2069 →
  (∃ d0, d0 ∈ DUS_DF ∧ in_month month year d0
         ∧ ymd2ord year month 15 ≤ d0) →
  ∀ d, get_fifteen DUS_DF (PyInt month) (PyInt year) = Ok d ↔
       earliest_from DUS_DF (ymd2ord year month 15) d.
Proof.
  intros Hasc Hsub Hm Hy (d0 & Hd0 & Hmo0 & Hle0) d.
  rewrite get_fifteen_int by done.
  pose proof (days_in_month_bounds year month Hm) as Hlen.
  pose proof (ymd2ord_day year month 15) as H15.
  pose proof (proj1 (in_month_range _ _ _ Hm Hy (Hsub _ Hd0)) Hmo0) as Hr0.
  split.
  - rewrite iloc_0. destruct (head _) as [x|] eqn:Hhd; [|done].
    intros [= ->].
    apply head_filter_least in Hhd as (Hd & [Hle Hmo] & Hmin); [|done].
    pose proof (proj1 (in_month_range _ _ _ Hm Hy (Hsub _ Hd)) Hmo) as Hr.
    split_and!; [done..|]. intros d' Hd' Hle'.
    destruct (decide (in_month month year d')) as [Hmo'|Hout];
      [by apply Hmin|].
    rewrite (in_month_range _ _ _ Hm Hy (Hsub _ Hd')) in Hout. lia.
  - intros (Hd & Hle & Hmin). apply iloc_0_least; [done..| |].
    + split; [done|]. apply (in_month_range _ _ _ Hm Hy (Hsub _ Hd)).
      specialize (Hmin d0 Hd0 Hle0). lia.
    + intros z Hz [Hlez _]. by apply Hmin.
Qed.


(** ** Fewer than three Fridays *)

(** January 2070 has a single day in the window, a Wednesday. *)
Lemma fridays_jan_2070 : fridays_in_window 1 2070 = [].
Proof.
  apply filter_none, Forall_forall. intros d Hd [Hwd [Hmo Hye]].
  destruct (ord2ymd_window d Hd) as (Hrt & _ & _ & Hday).
  apply elem_of_DCS_DF in Hd. rewrite end_date_eq in Hd.
  rewrite Hmo, Hye, ymd2ord_day in Hrt.
  assert (d = 755688) as -> by (change (ymd2ord 2070 1 1) with 755688 in Hrt; lia).
  by vm_compute in Hwd.
Qed.

(** C7, as the code has it.  With fewer than three Fridays of the month
    in the calendar window, [get_third_friday_du_month] fails with the
    [IndexError] of the out-of-range position 2. *)
Theorem get_third_friday_du_month_few_fridays
    (DUS_DF : list date) (month year : Z) :
  (length (fridays_in_window month year) < 3)%nat →
  get_third_friday_du_month DUS_DF (PyInt month) (PyInt year)
    = Raise IndexError.
Proof.
  intros Hlen. rewrite get_third_friday_du_month_int. unfold iloc.
  by rewrite lookup_ge_None_2 by lia.
Qed.

(** C7 as stated fails: the failure is the index fault itself.  January
    2070 has no Friday in the window and the call raises [IndexError]. *)
Lemma get_third_friday_du_month_index_fault_counterexample :
  (length (fridays_in_window 1 2070) < 3)%nat
  ∧ get_third_friday_du_month sample_DUS (PyInt 1) (PyInt 2070)
      = Raise IndexError.
Proof.
  split.
  - rewrite fridays_jan_2070. simpl. lia.
  - rewrite get_third_friday_du_month_int, fridays_jan_2070. reflexivity.
Qed.

(** ** The batch applicator *)

Lemma not_recognized_dispatch metodo_venc :
  metodo_venc ∉ METODOS →
  metodo_venc ≠ "prim_du" ∧ metodo_venc ≠ "ult_du"
  ∧ metodo_venc ≠ "terceira_sexta" ∧ metodo_venc ≠ "quarta_prox_quinze"
  ∧ metodo_venc ≠ "dia_15".
Proof. unfold METODOS. set_solver. Qed.

(** C5, as the code has it.  With a convention selector outside the five
    recognized strings no branch of the dispatch runs: the call raises
    nothing and returns the table without an expiry column added. *)
Theorem add_dia_vencimento_df_unknown_metodo
    (DUS_DF : list date) (df : DataFrame) (metodo_venc : string) :
  metodo_venc ∉ METODOS →
  add_dia_vencimento_df DUS_DF df metodo_venc = Ok df.
Proof.
  intros (H1 & H2 & H3 & H4 & H5)%not_recognized_dispatch.
  unfold add_dia_vencimento_df.
  by rewrite !decide_False by done.
Qed.

(** C5 as stated fails: an unknown selector returns a result. *)
Lemma add_dia_vencimento_df_unknown_metodo_counterexample :
  ("primeiro_du" ∉ METODOS)
  ∧ add_dia_vencimento_df sample_DUS (mkDataFrame ["F21"; "G21"] None)
      "primeiro_du"
    = Ok (mkDataFrame ["F21"; "G21"] None).
Proof.
  split.
  - unfold METODOS. compute_done.
  - vm_compute. reflexivity.
Qed.

(** *** Contract codes *)

Lemma MONTH_CODES_Some k v : MONTH_CODES !! k = Some v → k ∈ MONTH_LETTERS.
Proof.
  unfold MONTH_CODES. intros Hk%elem_of_list_to_map_2.
  by apply (list_elem_of_fmap_2 fst) in Hk.
Qed.

Lemma map_month_code_unrecognized code :
  ¬ first_letter_recognized code → map_month_code code = None.
Proof.
  intros Hno. unfold map_month_code.
  destruct (str_first code) as [k|] eqn:Hk; [|done]. cbn.
  destruct (MONTH_CODES !! k) as [v|] eqn:Hv; [|done].
  destruct Hno. exists k. split; [done|]. by eapply MONTH_CODES_Some.
Qed.

Lemma py_int_Raise v e : py_int v = Raise e → e = ValueError.
Proof.
  destruct v as [n|[n|]|s]; cbn; try done; [congruence|].
  destruct (int_of_str s); [done|congruence].
Qed.

(** Each resolver converts its two arguments first; a failed conversion
    is the [ValueError] the resolver raises. *)
Lemma resolvers_conversion_error DUS_DF mv yv :
  (∃ e, py_int mv = Raise e) ∨ (∃ e, py_int yv = Raise e) →
  get_first_du_month DUS_DF mv yv = Raise ValueError
  ∧ get_last_du_month DUS_DF mv yv = Raise ValueError
  ∧ get_third_friday_du_month DUS_DF mv yv = Raise ValueError
  ∧ get_wednesday_closest_fifteen DUS_DF mv yv = Raise ValueError
  ∧ get_fifteen DUS_DF mv yv = Raise ValueError.
Proof.
  intros Herr.
  unfold get_first_du_month, get_last_du_month, get_third_friday_du_month,
    get_wednesday_closest_fifteen, get_fifteen.
  destruct (py_int mv) as [m|e] eqn:Hm.
  - destruct Herr as [[e He]|[e He]]; [done|].
    rewrite He. apply py_int_Raise in He as ->. done.
  - apply py_int_Raise in Hm as ->. done.
Qed.

Lemma apply_rows_Raise {A B} (f : A → result B) rows r e :
  r ∈ rows → f r = Raise e → ∃ e', apply_rows f rows = Raise e'.
Proof.
  intros Hr Hf. induction rows as [|r' rows IH]; [by apply not_elem_of_nil in Hr|].
  cbn [apply_rows]. destruct (f r') as [v|e1] eqn:Hr'; [|by eexists].
  apply elem_of_cons in Hr as [->|Hr]; [congruence|].
  destruct (IH Hr) as [e' ->]. by eexists.
Qed.

(** On a frame with rows, applying and assigning is the row loop followed
    by the new column; on a frame without rows the assignment raises. *)
Lemma df_apply_assign {A} (f : A → result Z) rows df :
  rows ≠ [] →
  (value ← df_apply f rows; assign_vencimento_dt df value)
    = (col ← apply_rows f rows; Ok (set_vencimento_dt df col)).
Proof.
  destruct rows as [|r rows]; [done|]. intros _. unfold df_apply.
  by destruct (apply_rows f (r :: rows)).
Qed.

Lemma df_apply_assign_nil {A} (f : A → result Z) df :
  (value ← df_apply f []; assign_vencimento_dt df value) = Raise ValueError.
Proof. reflexivity. Qed.

(** The value a row sees in its month column. *)
Lemma mes_vcto_lookup codes :
  mes_vcto codes =
    (λ c, if bool_decide (Forall is_Some (mes_vcto_raw codes))
          then PyInt (default 0 (map_month_code c))
          else PyFloat (map_month_code c)) <$> codes.
Proof.
  unfold mes_vcto, mes_vcto_raw.
  destruct (bool_decide _); by rewrite <-list_fmap_compose.
Qed.

Lemma zip_fmap_same {A B C} (f : A → B) (g : A → C) l :
  zip (f <$> l) (g <$> l) = (λ x, (f x, g x)) <$> l.
Proof. induction l as [|x l IH]; [done|]. cbn. by rewrite IH. Qed.

(** The row of a bad code carries a month or a year that [int] rejects. *)
Lemma bad_ticker_row codes code :
  code ∈ codes → bad_ticker code →
  ∃ r, r ∈ zip (mes_vcto codes) (ano_vcto codes)
    ∧ ((∃ e, py_int r.1 = Raise e) ∨ (∃ e, py_int r.2 = Raise e)).
Proof.
  intros Hin Hbad. rewrite mes_vcto_lookup. unfold ano_vcto.
  rewrite zip_fmap_same. eexists. split.
  { apply list_elem_of_fmap. by eexists. }
  cbn [fst snd]. destruct Hbad as [Hletter|Hyear].
  - left. apply map_month_code_unrecognized in Hletter.
    rewrite bool_decide_eq_false_2.
    + rewrite Hletter. by eexists.
    + rewrite Forall_forall. intros Hall.
      destruct (Hall None) as [? ?]; [|done].
      unfold mes_vcto_raw. apply list_elem_of_fmap. by exists code.
  - right. cbn [py_int]. rewrite Hyear. by eexists.
Qed.

(** C6, as the code has it.  Decoding raises nothing by itself; a bad
    contract code makes the batch fail, under each of the five recognized
    conventions, when the resolver converts the month and the year, and a
    table holding only that code fails with [ValueError]. *)
Theorem add_dia_vencimento_df_bad_ticker
    (DUS_DF : list date) (df : DataFrame) (metodo_venc code : string) :
  metodo_venc ∈ METODOS →
  code ∈ vencimento df →
  bad_ticker code →
  (∃ e, add_dia_vencimento_df DUS_DF df metodo_venc = Raise e)
  ∧ (vencimento df = [code] →
     add_dia_vencimento_df DUS_DF df metodo_venc = Raise ValueError).
Proof.
  intros Hmet Hin Hbad.
  destruct (bad_ticker_row _ _ Hin Hbad) as (r & Hr & Herr).
  destruct (resolvers_conversion_error DUS_DF r.1 r.2 Herr)
    as (H1 & H2 & H3 & H4 & H5).
  assert (∀ f : pyval * pyval → result Z, f r = Raise ValueError →
    (∃ e, (value ← df_apply f (zip (mes_vcto (vencimento df))
                                   (ano_vcto (vencimento df)));
           assign_vencimento_dt df value) = Raise e)
    ∧ (vencimento df = [code] →
       (value ← df_apply f (zip (mes_vcto (vencimento df))
                                (ano_vcto (vencimento df)));
        assign_vencimento_dt df value) = Raise ValueError)) as Hrun.
  { intros f Hf.
    rewrite df_apply_assign
      by (intros Hnil; rewrite Hnil in Hr; by apply not_elem_of_nil in Hr).
    split.
    - destruct (apply_rows_Raise f _ r _ Hr Hf) as [e ->]. by eexists.
    - intros Hone. rewrite Hone in Hr |- *.
      rewrite mes_vcto_lookup in Hr |- *. unfold ano_vcto in Hr |- *.
      cbn [fmap list_fmap zip zip_with] in Hr |- *.
      apply list_elem_of_singleton in Hr as <-.
      cbn [apply_rows]. by rewrite Hf. }
  unfold add_dia_vencimento_df, METODOS in *.
  repeat (apply elem_of_cons in Hmet as [->|Hmet]);
    [by apply Hrun..|by apply not_elem_of_nil in Hmet].
Qed.

(** C6 as stated fails: the remainder of ["F21 "] is not two digits, yet
    the code decodes to January 2021 and gets its expiry date. *)
Lemma ticker_decoding_counterexample :
  two_digits (str_rest "F21 ") = false
  ∧ add_dia_vencimento_df sample_DUS (mkDataFrame ["F21 "] None) "prim_du"
    = Ok (mkDataFrame ["F21 "] (Some [ymd2ord 2021 1 4])).
Proof. split; vm_compute; reflexivity. Qed.

(** ** Worked examples on the sample calendar *)

Lemma ascending_sample_DUS : ascending sample_DUS.
Proof. unfold ascending. compute_done. Qed.

Lemma NoDup_sample_DUS : NoDup sample_DUS.
Proof. apply ascending_NoDup, ascending_sample_DUS. Qed.

Lemma sample_DUS_in_DCS_DF : sample_DUS ⊆ DCS_DF.
Proof.
  assert (Forall (λ d, 726468 ≤ d ≤ 755688) sample_DUS) as Hall
    by compute_done.
  intros d Hd. apply elem_of_DCS_DF. rewrite start_date_eq, end_date_eq.
  by eapply Forall_forall in Hall.
Qed.

Lemma fridays_in_window_horizon m y :
  1 ≤ m ≤ 12 → 1990 ≤ y ≤ 2069 →
  fridays_in_window m y =
    filter (λ d, weekday d = 4) (seqZ (ymd2ord y m 1) (days_in_month y m)).
Proof.
  intros Hm Hy. unfold fridays_in_window.
  by rewrite <-list_filter_filter, in_month_window.
Qed.

(** Every month of the horizon has at least three Fridays in the window,
    so the third Friday always exists there. *)
Lemma fridays_in_window_at_least_three m y :
  1 ≤ m ≤ 12 → 1990 ≤ y ≤ 2069 →
  (3 ≤ length (fridays_in_window m y))%nat.
Proof.
  intros Hm Hy. pose proof (days_in_month_bounds y m Hm) as Hlen.
  rewrite fridays_in_window_horizon by done.
  set (f := ymd2ord y m 1). set (a := f + (5 - f) mod 7).
  pose proof (Z.mod_pos_bound (5 - f) 7 ltac:(lia)) as Hk.
  assert (∀ j, weekday (a + 7 * j) = 4) as Hwd.
  { intros j. unfold weekday, a.
    replace (f + (5 - f) `mod` 7 + 7 * j + 6)
      with ((5 - f) mod 7 + (f + 6 + j * 7)) by lia.
    rewrite Zplus_mod_idemp_l.
    replace (5 - f + (f + 6 + j * 7)) with (4 + (j + 1) * 7) by lia.
    by rewrite Z_mod_plus_full. }
  change 3%nat with (length [a; a + 7 * 1; a + 7 * 2]).
  apply submseteq_length, NoDup_submseteq.
  - repeat (constructor; [set_unfold; lia|]). constructor.
  - intros x Hx. apply list_elem_of_filter. rewrite elem_of_seqZ.
    assert (x = a + 7 * 0 ∨ x = a + 7 * 1 ∨ x = a + 7 * 2) as Hcase
      by (set_unfold; lia).
    destruct Hcase as [-> | [-> | ->]]; (split; [apply Hwd|unfold a; lia]).
Qed.

(** The Fridays of January 2021 are the 1st, 8th, 15th, 22nd and 29th. *)
Lemma fridays_jan_2021 :
  fridays_in_window 1 2021 =
    [ymd2ord 2021 1 1; ymd2ord 2021 1 8; ymd2ord 2021 1 15;
     ymd2ord 2021 1 22; ymd2ord 2021 1 29].
Proof. rewrite fridays_in_window_horizon by lia. vm_compute. reflexivity. Qed.

(** 2021-01-15 is not a business day of the sample calendar: the expiry
    falls back to Thursday 2021-01-14. *)
Lemma third_friday_jan_2021 :
  get_third_friday_du_month sample_DUS (PyInt 1) (PyInt 2021)
    = Ok (ymd2ord 2021 1 14).
Proof.
  rewrite get_third_friday_du_month_int, fridays_jan_2021.
  vm_compute. reflexivity.
Qed.

(** 2021-02-19, the third Friday of February 2021, is a business day. *)
Lemma third_friday_feb_2021 :
  get_third_friday_du_month sample_DUS (PyInt 2) (PyInt 2021)
    = Ok (ymd2ord 2021 2 19).
Proof.
  rewrite get_third_friday_du_month_int, fridays_in_window_horizon by lia.
  vm_compute. reflexivity.
Qed.

(** Between 2021-01-04 and 2021-01-12 lie eight days, six of them
    business days. *)
Lemma day_counts_jan_2021 :
  calc_du sample_DUS (ymd2ord 2021 1 4) (ymd2ord 2021 1 12) = 6%nat
  ∧ Z.of_nat (calc_dc (ymd2ord 2021 1 4) (ymd2ord 2021 1 12)) = 8.
Proof.
  split; [by vm_compute|].
  rewrite calc_dc_within; rewrite ?start_date_eq, ?end_date_eq; by vm_compute.
Qed.

(** ** Instances of the theorems *)

Lemma get_third_friday_du_month_spec_witness :
  ascending sample_DUS
  ∧ (3 ≤ length (fridays_in_window 1 2021))%nat
  ∧ ∃ tf, is_third_friday 1 2021 tf
      ∧ (tf ∈ sample_DUS →
         get_third_friday_du_month sample_DUS (PyInt 1) (PyInt 2021) = Ok tf)
      ∧ (tf ∉ sample_DUS → ∀ d, latest_before sample_DUS tf d →
         get_third_friday_du_month sample_DUS (PyInt 1) (PyInt 2021) = Ok d).
Proof.
  assert (ascending sample_DUS) as H1 by exact ascending_sample_DUS.
  assert (3 ≤ length (fridays_in_window 1 2021))%nat as H2
    by (rewrite fridays_jan_2021; simpl; lia).
  split; [exact H1|]. split; [exact H2|].
  exact (get_third_friday_du_month_spec sample_DUS 1 2021 H1 H2).
Defined.

Lemma get_fifteen_spec_witness :
  ascending sample_DUS ∧ 1 ≤ 1 ≤ 12 ∧ 1990 ≤ 2021 ≤ 2069
  ∧ (∀ d, get_fifteen sample_DUS (PyInt 1) (PyInt 2021) = Ok d ↔
          earliest_in_month_from sample_DUS 1 2021 (ymd2ord 2021 1 15) d)
  ∧ (ymd2ord 2021 1 15 ∈ sample_DUS →
     get_fifteen sample_DUS (PyInt 1) (PyInt 2021) = Ok (ymd2ord 2021 1 15))
  ∧ ((∀ d, d ∈ sample_DUS → in_month 1 2021 d → d < ymd2ord 2021 1 15) →
     get_fifteen sample_DUS (PyInt 1) (PyInt 2021) = Raise IndexError).
Proof.
  assert (ascending sample_DUS) as H1 by exact ascending_sample_DUS.
  assert (1 ≤ 1 ≤ 12) as H2 by lia.
  assert (1990 ≤ 2021 ≤ 2069) as H3 by lia.
  split; [exact H1|]. split; [exact H2|]. split; [exact H3|].
  exact (get_fifteen_spec sample_DUS 1 2021 H1 H2 H3).
Defined.

Lemma get_wednesday_closest_fifteen_spec_witness :
  ascending sample_DUS ∧ 1 ≤ 2 ≤ 12 ∧ 1990 ≤ 2021 ≤ 2069
  ∧ ∃ w, is_closest_wednesday 2 2021 w
      ∧ (w ∈ sample_DUS →
         get_wednesday_closest_fifteen sample_DUS (PyInt 2) (PyInt 2021)
           = Ok w)
      ∧ (w ∉ sample_DUS → ∀ d, earliest_after sample_DUS w d →
         get_wednesday_closest_fifteen sample_DUS (PyInt 2) (PyInt 2021)
           = Ok d).
Proof.
  assert (ascending sample_DUS) as H1 by exact ascending_sample_DUS.
  assert (1 ≤ 2 ≤ 12) as H2 by lia.
  assert (1990 ≤ 2021 ≤ 2069) as H3 by lia.
  split; [exact H1|]. split; [exact H2|]. split; [exact H3|].
  exact (get_wednesday_closest_fifteen_spec sample_DUS 2 2021 H1 H2 H3).
Defined.

Lemma calc_du_calc_dc_count_witness :
  NoDup sample_DUS
  ∧ calc_du sample_DUS (ymd2ord 2021 1 4) (ymd2ord 2021 1 12)
      = count_between sample_DUS (ymd2ord 2021 1 4) (ymd2ord 2021 1 12)
  ∧ calc_dc (ymd2ord 2021 1 4) (ymd2ord 2021 1 12)
      = count_between DCS_DF (ymd2ord 2021 1 4) (ymd2ord 2021 1 12)
  ∧ (ymd2ord 2021 1 12 ≤ ymd2ord 2021 1 4 →
     calc_du sample_DUS (ymd2ord 2021 1 4) (ymd2ord 2021 1 12) = 0%nat
     ∧ calc_dc (ymd2ord 2021 1 4) (ymd2ord 2021 1 12) = 0%nat).
Proof.
  assert (NoDup sample_DUS) as H1 by exact NoDup_sample_DUS.
  split; [exact H1|].
  exact (calc_du_calc_dc_count sample_DUS
           (ymd2ord 2021 1 4) (ymd2ord 2021 1 12) H1).
Defined.

Lemma add_dia_vencimento_df_unknown_metodo_witness :
  ("primeiro_du" ∉ METODOS)
  ∧ add_dia_vencimento_df sample_DUS (mkDataFrame ["F21"; "A21"] None)
      "primeiro_du"
    = Ok (mkDataFrame ["F21"; "A21"] None).
Proof.
  assert ("primeiro_du" ∉ METODOS) as H1 by (unfold METODOS; compute_done).
  split; [exact H1|].
  exact (add_dia_vencimento_df_unknown_metodo sample_DUS
           (mkDataFrame ["F21"; "A21"] None) "primeiro_du" H1).
Defined.

Lemma add_dia_vencimento_df_bad_ticker_witness :
  "ult_du" ∈ METODOS
  ∧ "F2x" ∈ vencimento (mkDataFrame ["F2x"] None)
  ∧ bad_ticker "F2x"
  ∧ (∃ e, add_dia_vencimento_df sample_DUS (mkDataFrame ["F2x"] None) "ult_du"
          = Raise e)
  ∧ (vencimento (mkDataFrame ["F2x"] None) = ["F2x"] →
     add_dia_vencimento_df sample_DUS (mkDataFrame ["F2x"] None) "ult_du"
       = Raise ValueError).
Proof.
  assert ("ult_du" ∈ METODOS) as H1 by (unfold METODOS; compute_done).
  assert ("F2x" ∈ vencimento (mkDataFrame ["F2x"] None)) as H2
    by (simpl; compute_done).
  assert (bad_ticker "F2x") as H3 by (right; reflexivity).
  split; [exact H1|]. split; [exact H2|]. split; [exact H3|].
  exact (add_dia_vencimento_df_bad_ticker sample_DUS
           (mkDataFrame ["F2x"] None) "ult_du" "F2x" H1 H2 H3).
Defined.

Lemma get_third_friday_du_month_few_fridays_witness :
  (length (fridays_in_window 1 2070) < 3)%nat
  ∧ get_third_friday_du_month sample_DUS (PyInt 1) (PyInt 2070)
      = Raise IndexError.
Proof.
  assert (length (fridays_in_window 1 2070) < 3)%nat as H1
    by (rewrite fridays_jan_2070; simpl; lia).
  split; [exact H1|].
  exact (get_third_friday_du_month_few_fridays sample_DUS 1 2070 H1).
Defined.

Lemma adjusted_results_are_business_days_witness :
  (get_third_friday_du_month sample_DUS (PyInt 1) (PyInt 2021)
     = Ok (ymd2ord 2021 1 14)
   ∨ get_wednesday_closest_fifteen sample_DUS (PyInt 1) (PyInt 2021)
     = Ok (ymd2ord 2021 1 14))
  ∧ ymd2ord 2021 1 14 ∈ sample_DUS.
Proof.
  assert (get_third_friday_du_month sample_DUS (PyInt 1) (PyInt 2021)
            = Ok (ymd2ord 2021 1 14)
          ∨ get_wednesday_closest_fifteen sample_DUS (PyInt 1) (PyInt 2021)
            = Ok (ymd2ord 2021 1 14)) as H1
    by (left; exact third_friday_jan_2021).
  split; [exact H1|].
  exact (adjusted_results_are_business_days sample_DUS
           (PyInt 1) (PyInt 2021) (ymd2ord 2021 1 14) H1).
Defined.

Lemma calc_dc_ge_calc_du_witness :
  NoDup sample_DUS ∧ sample_DUS ⊆ DCS_DF
  ∧ ymd2ord 2021 1 4 < ymd2ord 2021 1 12
  ∧ (calc_du sample_DUS (ymd2ord 2021 1 4) (ymd2ord 2021 1 12)
     ≤ calc_dc (ymd2ord 2021 1 4) (ymd2ord 2021 1 12))%nat.
Proof.
  assert (NoDup sample_DUS) as H1 by exact NoDup_sample_DUS.
  assert (sample_DUS ⊆ DCS_DF) as H2 by exact sample_DUS_in_DCS_DF.
  assert (ymd2ord 2021 1 4 < ymd2ord 2021 1 12) as H3 by (vm_compute; reflexivity).
  split; [exact H1|]. split; [exact H2|]. split; [exact H3|].
  exact (calc_dc_ge_calc_du sample_DUS
           (ymd2ord 2021 1 4) (ymd2ord 2021 1 12) H1 H2 H3).
Defined.

Lemma calc_dc_exact_witness :
  in_horizon (ymd2ord 2021 1 4) ∧ in_horizon (ymd2ord 2021 1 12)
  ∧ ymd2ord 2021 1 4 ≤ ymd2ord 2021 1 12
  ∧ Z.of_nat (calc_dc (ymd2ord 2021 1 4) (ymd2ord 2021 1 12))
    = ymd2ord 2021 1 12 - ymd2ord 2021 1 4.
Proof.
  assert (in_horizon (ymd2ord 2021 1 4)) as H1
    by (unfold in_horizon; vm_compute; intuition discriminate).
  assert (in_horizon (ymd2ord 2021 1 12)) as H2
    by (unfold in_horizon; vm_compute; intuition discriminate).
  assert (ymd2ord 2021 1 4 ≤ ymd2ord 2021 1 12) as H3
    by (vm_compute; discriminate).
  split; [exact H1|]. split; [exact H2|]. split; [exact H3|].
  exact (calc_dc_exact (ymd2ord 2021 1 4) (ymd2ord 2021 1 12) H1 H2 H3).
Defined.

(** * Further properties of the module *)

(** ** First and last business day of a month *)

Lemma get_first_du_month_int DUS_DF m y :
  get_first_du_month DUS_DF (PyInt m) (PyInt y)
    = iloc (filter (in_month m y) DUS_DF) 0.
Proof. reflexivity. Qed.

Lemma get_last_du_month_int DUS_DF m y :
  get_last_du_month DUS_DF (PyInt m) (PyInt y)
    = iloc_last (filter (in_month m y) DUS_DF).
Proof. reflexivity. Qed.

Lemma iloc_0_nil_iff {A} (l : list A) : iloc l 0 = Raise IndexError ↔ l = [].
Proof. rewrite iloc_0. destruct l; naive_solver. Qed.

Lemma iloc_last_nil_iff {A} (l : list A) :
  iloc_last l = Raise IndexError ↔ l = [].
Proof.
  unfold iloc_last. destruct (last l) eqn:Hl.
  - split; [done|]. intros ->. done.
  - apply last_None in Hl. done.
Qed.

Lemma filter_nil_iff {A} (P : A → Prop) `{∀ x, Decision (P x)} (l : list A) :
  filter P l = [] ↔ ∀ x, x ∈ l → ¬ P x.
Proof.
  split.
  - intros Hnil x Hx HP. by eapply filter_nil_not_elem_of.
  - intros Hall. by apply filter_none, Forall_forall.
Qed.

(** X1.  On an ascending business calendar [get_first_du_month] returns
    a date exactly when it is the earliest business day of the month, and
    raises [IndexError] exactly when the month has no business day. *)
Theorem get_first_du_month_spec (DUS_DF : list date) (month year : Z) :
  ascending DUS_DF →
  (∀ d, get_first_du_month DUS_DF (PyInt month) (PyInt year) = Ok d ↔
        first_in_month DUS_DF month year d)
  ∧ (get_first_du_month DUS_DF (PyInt month) (PyInt year) = Raise IndexError ↔
     ∀ d, d ∈ DUS_DF → ¬ in_month month year d).
Proof.
  intros Hasc. rewrite get_first_du_month_int. split.
  - intros d. split.
    + rewrite iloc_0. destruct (head _) as [x|] eqn:Hhd; [|done].
      intros [= ->]. by apply head_filter_least in Hhd.
    + intros (Hd & Hmo & Hmin). by apply iloc_0_least.
  - by rewrite iloc_0_nil_iff, filter_nil_iff.
Qed.

(** X2.  On an ascending business calendar [get_last_du_month] returns a
    date exactly when it is the latest business day of the month, and
    raises [IndexError] exactly when the month has no business day. *)
Theorem get_last_du_month_spec (DUS_DF : list date) (month year : Z) :
  ascending DUS_DF →
  (∀ d, get_last_du_month DUS_DF (PyInt month) (PyInt year) = Ok d ↔
        last_in_month DUS_DF month year d)
  ∧ (get_last_du_month DUS_DF (PyInt month) (PyInt year) = Raise IndexError ↔
     ∀ d, d ∈ DUS_DF → ¬ in_month month year d).
Proof.
  intros Hasc. rewrite get_last_du_month_int. split.
  - intros d. split.
    + unfold iloc_last. destruct (last _) as [x|] eqn:Hla; [|done].
      intros [= ->]. by apply last_filter_greatest in Hla.
    + intros (Hd & Hmo & Hmax). by apply iloc_last_greatest.
  - by rewrite iloc_last_nil_iff, filter_nil_iff.
Qed.

(** X3.  For any argument values the two resolvers fail together, with
    the same exception; when they succeed on an ascending calendar the
    first business day is not after the last one. *)
Theorem get_first_le_get_last (DUS_DF : list date) (month year : pyval) :
  ascending DUS_DF →
  (∀ e, get_first_du_month DUS_DF month year = Raise e ↔
        get_last_du_month DUS_DF month year = Raise e)
  ∧ (∀ a b, get_first_du_month DUS_DF month year = Ok a →
            get_last_du_month DUS_DF month year = Ok b → a ≤ b).
Proof.
  intros Hasc. unfold get_first_du_month, get_last_du_month.
  destruct (py_int month) as [m|e1]; [|done].
  destruct (py_int year) as [y|e2]; [|done].
  cbn [mbind result_bind]. rewrite iloc_0. unfold iloc_last.
  destruct (filter (in_month m y) DUS_DF) as [|x l] eqn:Hf; [done|].
  rewrite <-Hf. cbn [head].
  destruct (last_filter_is_Some (in_month m y) DUS_DF x) as [z Hz].
  { assert (x ∈ filter (in_month m y) DUS_DF) as Hx by (rewrite Hf; by left).
    by apply list_elem_of_filter in Hx as [_ ?]. }
  { assert (x ∈ filter (in_month m y) DUS_DF) as Hx by (rewrite Hf; by left).
    by apply list_elem_of_filter in Hx as [? _]. }
  rewrite Hz. rewrite Hf. cbn [head]. split; [done|].
  intros a b [= <-] [= <-].
  assert (head (filter (in_month m y) DUS_DF) = Some x) as Hhd by by rewrite Hf.
  apply head_filter_least in Hhd as (_ & _ & Hmin); [|done].
  apply last_filter_greatest in Hz as (Hzin & Hzmo & _); [|done].
  by apply Hmin.
Qed.

(** ** Argument values *)

(** X4.  Four of the resolvers use their arguments only through [int]:
    any month and year values that convert, text included, give the
    result of the converted integers. *)
Theorem resolvers_accept_convertible (DUS_DF : list date)
    (month year : pyval) (m y : Z) :
  py_int month = Ok m → py_int year = Ok y →
  get_first_du_month DUS_DF month year
    = get_first_du_month DUS_DF (PyInt m) (PyInt y)
  ∧ get_last_du_month DUS_DF month year
    = get_last_du_month DUS_DF (PyInt m) (PyInt y)
  ∧ get_third_friday_du_month DUS_DF month year
    = get_third_friday_du_month DUS_DF (PyInt m) (PyInt y)
  ∧ get_wednesday_closest_fifteen DUS_DF month year
    = get_wednesday_closest_fifteen DUS_DF (PyInt m) (PyInt y).
Proof.
  intros Hm Hy.
  unfold get_first_du_month, get_last_du_month, get_third_friday_du_month,
    get_wednesday_closest_fifteen.
  rewrite Hm, Hy. done.
Qed.

(** X5.  [get_fifteen] compares its month with 10 after converting it, so
    a month given as text, the type its signature announces, raises
    [TypeError] even when both conversions succeed. *)
Theorem get_fifteen_text_month (DUS_DF : list date)
    (s : string) (year : pyval) (m y : Z) :
  py_int (PyStr s) = Ok m → py_int year = Ok y →
  get_fifteen DUS_DF (PyStr s) year = Raise TypeError.
Proof.
  intros Hm Hy. unfold get_fifteen. rewrite Hm, Hy. done.
Qed.

(** ** Months outside the calendar window *)

Lemma in_month_outside_window m y d :
  y < 1990 ∨ 2070 < y → d ∈ DCS_DF → ¬ in_month m y d.
Proof.
  intros Hy Hd [_ Hye].
  destruct (ord2ymd_window d Hd) as (_ & _ & Hyear & _). lia.
Qed.

(** X6.  For a year before 1990 or after 2070 no resolver returns a
    date when the business calendar lies inside the all-days window:
    the first four raise [IndexError] and [get_fifteen] raises as well. *)
Theorem resolvers_outside_window (DUS_DF : list date)
    (month year : pyval) (m y : Z) :
  DUS_DF ⊆ DCS_DF →
  py_int month = Ok m → py_int year = Ok y →
  y < 1990 ∨ 2070 < y →
  get_first_du_month DUS_DF month year = Raise IndexError
  ∧ get_last_du_month DUS_DF month year = Raise IndexError
  ∧ get_third_friday_du_month DUS_DF month year = Raise IndexError
  ∧ get_wednesday_closest_fifteen DUS_DF month year = Raise IndexError
  ∧ ∃ e, get_fifteen DUS_DF month year = Raise e.
Proof.
  intros Hsub Hm Hy Hout.
  assert (filter (in_month m y) DUS_DF = []) as Hdus.
  { apply filter_nil_iff. intros d Hd.
    by apply in_month_outside_window, Hsub. }
  assert (filter (in_month m y) DCS_DF = []) as Hdcs.
  { apply filter_nil_iff. intros d Hd. by apply in_month_outside_window. }
  unfold get_first_du_month, get_last_du_month, get_third_friday_du_month,
    get_wednesday_closest_fifteen, get_fifteen.
  rewrite Hm, Hy. cbn [mbind result_bind]. rewrite Hdus, Hdcs.
  split_and!; [done..|].
  destruct (py_lt_10 month) as [b|e]; [|by eexists].
  cbn [mbind result_bind].
  destruct (strptime_15 _ _) as [d|e]; [|by eexists].
  by eexists.
Qed.

(** ** More on day counts *)

Lemma length_filter_split (l : list Z) a b c :
  a ≤ b → b ≤ c →
  length (filter (λ d, a < d ∧ d ≤ c) l)
    = Nat.add (length (filter (λ d, a < d ∧ d ≤ b) l))
              (length (filter (λ d, b < d ∧ d ≤ c) l)).
Proof.
  intros Hab Hbc. induction l as [|x l IH]; [done|].
  rewrite !filter_cons.
  destruct (decide (a < x ∧ x ≤ c)), (decide (a < x ∧ x ≤ b)),
    (decide (b < x ∧ x ≤ c)); cbn [length]; lia.
Qed.

(** X7.  Day counts add up over adjacent intervals: for
    [a <= b <= c] the count from [a] to [c] is the count from [a] to [b]
    plus the count from [b] to [c], for business days and calendar days
    alike. *)
Theorem day_counts_additive (DUS_DF : list date) (a b c : date) :
  a ≤ b → b ≤ c →
  calc_du DUS_DF a c = (calc_du DUS_DF a b + calc_du DUS_DF b c)%nat
  ∧ calc_dc a c = (calc_dc a b + calc_dc b c)%nat.
Proof.
  intros Hab Hbc. unfold calc_du, calc_dc.
  split; by apply length_filter_split.
Qed.

(** X8.  [calc_dc] never raises on dates outside the window; it counts
    only the part of the interval inside it, the last day 2070-01-01
    included: the count is [min end 2070-01-01 - max start 1989-12-31],
    or 0 when that is negative. *)
Theorem calc_dc_clamped (dia_1 dia_n : date) :
  Z.of_nat (calc_dc dia_1 dia_n)
    = Z.max 0 (Z.min dia_n end_date - Z.max dia_1 (start_date - 1)).
Proof.
  rewrite start_date_eq, end_date_eq. unfold calc_dc. rewrite DCS_DF_seqZ.
  destruct (decide (Z.min dia_n 755688 ≤ Z.max dia_1 (726468 - 1)))
    as [Hempty|Hsome].
  - rewrite filter_none; [simpl; lia|].
    apply Forall_seqZ. intros d Hd. lia.
  - rewrite (filter_seqZ_interval _ _ _ (Z.max dia_1 (726468 - 1) + 1)
               (Z.min dia_n 755688 - Z.max dia_1 (726468 - 1))) by lia.
    rewrite length_seqZ. lia.
Qed.

Lemma filter_le_lookup l i x :
  ascending l → l !! i = Some x → filter (λ d, d ≤ x) l = take (S i) l.
Proof.
  intros Hl Hi. rewrite <-(take_drop_middle l i x Hi) at 1.
  rewrite (take_S_r l i x Hi).
  rewrite <-(take_drop_middle l i x Hi) in Hl.
  rewrite filter_app, filter_cons_True by lia.
  rewrite (filter_all _ (take i l)), filter_none; [done|..].
  - apply StronglySorted_app_1_r in Hl.
    apply StronglySorted_inv in Hl as [_ Hx].
    eapply Forall_impl; [done|]. simpl. lia.
  - apply Forall_forall. intros z Hz.
    assert (z < x); [|lia].
    eapply (StronglySorted_app_1_elem_of _ _ _ _ _ Hl); [done|]. by left.
Qed.

Lemma length_filter_le_split (l : list Z) a b :
  a ≤ b →
  length (filter (λ d, d ≤ b) l)
    = Nat.add (length (filter (λ d, d ≤ a) l))
              (length (filter (λ d, a < d ∧ d ≤ b) l)).
Proof.
  intros Hab. induction l as [|x l IH]; [done|].
  rewrite !filter_cons.
  destruct (decide (x ≤ b)), (decide (x ≤ a)), (decide (a < x ∧ x ≤ b));
    cbn [length]; lia.
Qed.

(** X9.  Between two business days the business-day count is the
    distance between their positions in the ascending calendar. *)
Theorem calc_du_positions (DUS_DF : list date) (i j : nat) (dia_1 dia_n : date) :
  ascending DUS_DF →
  DUS_DF !! i = Some dia_1 → DUS_DF !! j = Some dia_n → (i ≤ j)%nat →
  calc_du DUS_DF dia_1 dia_n = (j - i)%nat.
Proof.
  intros Hasc Hi Hj Hij. unfold calc_du.
  assert (dia_1 ≤ dia_n) as Hle.
  { destruct (decide (i = j)) as [->|Hne]; [naive_solver lia|].
    rewrite <-(take_drop_middle _ j _ Hj) in Hasc.
    assert (dia_1 < dia_n); [|lia].
    eapply (StronglySorted_app_1_elem_of _ _ _ _ _ Hasc); [|by left].
    apply list_elem_of_lookup. exists i.
    rewrite lookup_take_lt by lia. done. }
  pose proof (length_filter_le_split DUS_DF dia_1 dia_n Hle) as Hsplit.
  rewrite (filter_le_lookup _ j dia_n Hasc Hj) in Hsplit.
  rewrite (filter_le_lookup _ i dia_1 Hasc Hi) in Hsplit.
  apply lookup_lt_Some in Hi, Hj.
  rewrite !length_take in Hsplit. lia.
Qed.

(** X10.  On a calendar without duplicates the business-day count of an
    interval never exceeds its length in days, inside the window or not. *)
Theorem calc_du_le_days (DUS_DF : list date) (dia_1 dia_n : date) :
  NoDup DUS_DF → dia_1 ≤ dia_n →
  Z.of_nat (calc_du DUS_DF dia_1 dia_n) ≤ dia_n - dia_1.
Proof.
  intros Hnd Hle. unfold calc_du.
  assert (filter (λ d, dia_1 < d ∧ d ≤ dia_n) DUS_DF
            ⊆+ seqZ (dia_1 + 1) (dia_n - dia_1)) as Hsub.
  { apply NoDup_submseteq; [by apply NoDup_filter|].
    intros x [Hx _]%list_elem_of_filter. apply elem_of_seqZ. lia. }
  apply submseteq_length in Hsub. rewrite length_seqZ in Hsub. lia.
Qed.

(** ** Where the adjusted dates fall *)

Lemma ascending_ext l k :
  ascending l → ascending k → (∀ x, x ∈ l ↔ x ∈ k) → l = k.
Proof.
  intros Hl Hk Hext.
  assert (AntiSymm eq Z.lt) as Hanti by (intros x y ? ?; lia).
  apply (StronglySorted_unique Z.lt); [done..|].
  by apply NoDup_Permutation; [apply ascending_NoDup..|].
Qed.

Lemma elem_of_fridays m y d :
  1 ≤ m ≤ 12 → 1990 ≤ y ≤ 2069 →
  d ∈ fridays_in_window m y ↔
    weekday d = 4
    ∧ ymd2ord y m 1 ≤ d < ymd2ord y m 1 + days_in_month y m.
Proof.
  intros Hm Hy. rewrite fridays_in_window_horizon by done.
  by rewrite list_elem_of_filter, elem_of_seqZ.
Qed.

(** The third Friday of a month of the horizon, counted from its first
    day [f]: the first Friday is [f + (5 - f) mod 7]. *)
Lemma third_friday_position m y :
  1 ≤ m ≤ 12 → 1990 ≤ y ≤ 2069 →
  fridays_in_window m y !! 2%nat
    = Some (ymd2ord y m 1 + (5 - ymd2ord y m 1) mod 7 + 14).
Proof.
  intros Hm Hy. pose proof (days_in_month_bounds y m Hm) as Hlen.
  set (f := ymd2ord y m 1).
  pose proof (Z.mod_pos_bound (5 - f) 7 ltac:(lia)) as Hk.
  pose proof (Z.div_mod (5 - f) 7 ltac:(lia)) as Hdm.
  set (a := f + (5 - f) mod 7) in *.
  assert (a + 14 ∈ fridays_in_window m y) as Hin.
  { apply elem_of_fridays; [done..|]. fold f. split; [|lia].
    unfold weekday.
    pose proof (Z.div_mod (a + 14 + 6) 7 ltac:(lia)).
    pose proof (Z.mod_pos_bound (a + 14 + 6) 7 ltac:(lia)). lia. }
  apply list_elem_of_lookup in Hin as [i Hi].
  assert (i = 2%nat) as ->; [|done].
  pose proof (filter_lt_lookup _ i _ (ascending_fridays m y) Hi) as Hflt.
  assert (filter (λ d, d < a + 14) (fridays_in_window m y) = [a; a + 7])
    as Hpre.
  { apply ascending_ext.
    - apply ascending_filter, ascending_fridays.
    - repeat (constructor; [|repeat constructor; lia]). constructor.
    - intros x. rewrite list_elem_of_filter, elem_of_fridays by done.
      fold f. unfold weekday. set_unfold.
      pose proof (Z.div_mod (x + 6) 7 ltac:(lia)).
      pose proof (Z.mod_pos_bound (x + 6) 7 ltac:(lia)). lia. }
  rewrite Hpre in Hflt. apply (f_equal length) in Hflt.
  apply lookup_lt_Some in Hi. rewrite length_take in Hflt. simpl in Hflt. lia.
Qed.

Lemma is_third_friday_lookup m y tf :
  is_third_friday m y tf → fridays_in_window m y !! 2%nat = Some tf.
Proof.
  intros [Hin Hcount]. apply list_elem_of_lookup in Hin as [i Hi].
  rewrite (filter_lt_lookup _ i _ (ascending_fridays m y) Hi) in Hcount.
  pose proof (lookup_lt_Some _ _ _ Hi). rewrite length_take in Hcount.
  by replace i with 2%nat in Hi by lia.
Qed.

(** X11.  In a month of the horizon the third Friday is a day 15 to 21
    of that month, and a date returned by [get_third_friday_du_month] is
    never after it: the result is the third Friday exactly when that day
    is a business day, and an earlier day otherwise. *)
Theorem third_friday_day_and_direction (DUS_DF : list date) (month year : Z) :
  1 ≤ month ≤ 12 → 1990 ≤ year ≤ 2069 →
  ∃ tf, is_third_friday month year tf
    ∧ in_month month year tf ∧ weekday tf = 4 ∧ 15 ≤ day_of tf ≤ 21
    ∧ ∀ d, get_third_friday_du_month DUS_DF (PyInt month) (PyInt year) = Ok d →
        d ≤ tf ∧ (d = tf ↔ tf ∈ DUS_DF).
Proof.
  intros Hm Hy. pose proof (third_friday_position month year Hm Hy) as Hpos.
  pose proof (days_in_month_bounds year month Hm) as Hlen.
  set (f := ymd2ord year month 1) in *.
  pose proof (Z.mod_pos_bound (5 - f) 7 ltac:(lia)) as Hk.
  set (tf := f + (5 - f) mod 7 + 14) in *. exists tf.
  destruct (day_of_in_month month year tf Hm Hy) as (Hmo & Hday & _);
    [fold f; lia|]. fold f in Hday.
  pose proof (list_elem_of_lookup_2 _ _ _ Hpos) as Hin.
  apply elem_of_fridays in Hin as [Hwd _]; [|done..].
  split_and!; [by apply third_friday_lookup|done|done|lia|lia|].
  intros d. rewrite get_third_friday_du_month_int. unfold iloc at 1.
  rewrite Hpos. cbn [mbind result_bind].
  destruct (decide (tf ∉ DUS_DF)) as [Hout|Hin%dec_stable].
  - intros [Hlt _]%iloc_last_Ok_elem_of%list_elem_of_filter.
    split; [lia|]. split; [lia|done].
  - intros [= <-]. split; [lia|done].
Qed.

(** X12.  In a month of the horizon the Wednesday closest to the 15th is
    a day 12 to 18 of that month, and a date returned by
    [get_wednesday_closest_fifteen] is never before it: the result is that
    Wednesday exactly when it is a business day, and a later day
    otherwise. *)
Theorem closest_wednesday_day_and_direction
    (DUS_DF : list date) (month year : Z) :
  1 ≤ month ≤ 12 → 1990 ≤ year ≤ 2069 →
  ∃ w, is_closest_wednesday month year w
    ∧ in_month month year w ∧ weekday w = 2 ∧ 12 ≤ day_of w ≤ 18
    ∧ ∀ d, get_wednesday_closest_fifteen DUS_DF (PyInt month) (PyInt year)
             = Ok d →
        w ≤ d ∧ (d = w ↔ w ∈ DUS_DF).
Proof.
  intros Hm Hy.
  destruct (wednesday_near_fifteen month year Hm Hy) as (w0 & Hw0 & Hd0).
  destruct (head_sort_values_is_Some dist_fifteen
              (wednesdays_in_window month year)) as [w Hw].
  { intros Hnil. rewrite Hnil in Hw0. by apply not_elem_of_nil in Hw0. }
  pose proof (head_sort_values_ascending _ _ _
                (ascending_wednesdays month year) Hw) as Hclosest.
  exists w. pose proof Hclosest as [Hin Hmin].
  assert (dist_fifteen w ≤ 3) as Hd by (destruct (Hmin w0 Hw0); lia).
  pose proof Hin as [Hwd Hrange]%elem_of_wednesdays; [|done..].
  destruct (day_of_in_month month year w Hm Hy Hrange) as (Hmo & Hday & _).
  split_and!;
    [by apply closest_wednesday_key|done|done|unfold dist_fifteen in Hd; lia..|].
  intros d. rewrite get_wednesday_closest_fifteen_int, iloc_0, Hw.
  cbn [mbind result_bind].
  destruct (decide (w ∉ DUS_DF)) as [Hout|Hin'%dec_stable].
  - intros [Hlt _]%iloc_Ok_elem_of%list_elem_of_filter.
    split; [lia|]. split; [lia|done].
  - intros [= <-]. split; [lia|done].
Qed.

(** X13.  A date returned by [get_fifteen] for a month of the horizon is
    a business day of that very month, on day 15 or later, when the
    business calendar lies inside the all-days window. *)
Theorem get_fifteen_in_month (DUS_DF : list date) (month year : Z) (d : date) :
  DUS_DF ⊆ DCS_DF →
  1 ≤ month ≤ 12 → 1990 ≤ year ≤ 2069 →
  get_fifteen DUS_DF (PyInt month) (PyInt year) = Ok d →
  d ∈ DUS_DF ∧ in_month month year d ∧ 15 ≤ day_of d.
Proof.
  intros Hsub Hm Hy. rewrite get_fifteen_int by done.
  intros [[Hle Hmo] Hd]%iloc_Ok_elem_of%list_elem_of_filter.
  split_and!; [done..|].
  destruct (ord2ymd_window d (Hsub d Hd)) as (Hrt & _).
  destruct Hmo as [Hmo Hye]. rewrite Hmo, Hye in Hrt.
  rewrite ymd2ord_day in Hrt.
  rewrite (ymd2ord_day year month 15) in Hle. lia.
Qed.

(** X14.  Whatever the argument values, on an ascending calendar a date
    returned by [get_fifteen] lies between the dates returned by
    [get_first_du_month] and [get_last_du_month]. *)
Theorem get_fifteen_between_first_and_last
    (DUS_DF : list date) (month year : pyval) (a d b : date) :
  ascending DUS_DF →
  get_first_du_month DUS_DF month year = Ok a →
  get_fifteen DUS_DF month year = Ok d →
  get_last_du_month DUS_DF month year = Ok b →
  a ≤ d ≤ b.
Proof.
  intros Hasc. unfold get_first_du_month, get_last_du_month, get_fifteen.
  destruct (py_int month) as [m|e1]; [|done].
  destruct (py_int year) as [y|e2]; [|done].
  cbn [mbind result_bind]. rewrite iloc_0. unfold iloc_last.
  destruct (head _) as [a'|] eqn:Hhd; [|done]. intros [= ->].
  intros (small & _ & H15)%bind_Ok_inv.
  apply bind_Ok_inv in H15 as (dia_15 & _ & H15).
  apply iloc_Ok_elem_of, list_elem_of_filter in H15 as [_ Hd].
  apply list_elem_of_filter in Hd as [Hmo Hd].
  destruct (last _) as [b'|] eqn:Hla; [|done]. intros [= ->].
  apply head_filter_least in Hhd as (_ & _ & Hmin); [|done].
  apply last_filter_greatest in Hla as (_ & _ & Hmax); [|done].
  split; [by apply Hmin|by apply Hmax].
Qed.

(** ** More on the batch applicator *)

Lemma resolver_of_recognized metodo_venc :
  metodo_venc ∈ METODOS ↔ is_Some (resolver_of metodo_venc).
Proof.
  unfold METODOS, resolver_of. split.
  - intros Hin. repeat (apply elem_of_cons in Hin as [->|Hin]); [by eexists..|].
    by apply not_elem_of_nil in Hin.
  - intros [f Hf]. repeat case_decide; subst; [set_solver..|done].
Qed.

Lemma add_dia_vencimento_df_dispatch DUS_DF df metodo_venc f :
  resolver_of metodo_venc = Some f →
  add_dia_vencimento_df DUS_DF df metodo_venc =
    value ← df_apply (λ r, f DUS_DF r.1 r.2)
              (zip (mes_vcto (vencimento df)) (ano_vcto (vencimento df)));
    assign_vencimento_dt df value.
Proof.
  unfold resolver_of, add_dia_vencimento_df.
  repeat case_decide; intros [= <-]; done.
Qed.

Lemma rows_nil_iff codes :
  zip (mes_vcto codes) (ano_vcto codes) = [] ↔ codes = [].
Proof.
  rewrite mes_vcto_lookup. unfold ano_vcto. rewrite zip_fmap_same.
  split; [apply fmap_nil_inv|by intros ->].
Qed.

(** Under a recognized convention a table with rows goes through the row
    loop and gets the new column; a table without rows raises. *)
Lemma add_dia_vencimento_df_rows DUS_DF df metodo_venc f :
  resolver_of metodo_venc = Some f →
  vencimento df ≠ [] →
  add_dia_vencimento_df DUS_DF df metodo_venc =
    col ← apply_rows (λ r, f DUS_DF r.1 r.2)
          (zip (mes_vcto (vencimento df)) (ano_vcto (vencimento df)));
    Ok (set_vencimento_dt df col).
Proof.
  intros Hf Hrows. rewrite (add_dia_vencimento_df_dispatch _ _ _ _ Hf).
  apply df_apply_assign. by rewrite rows_nil_iff.
Qed.

Lemma add_dia_vencimento_df_no_rows DUS_DF df metodo_venc f :
  resolver_of metodo_venc = Some f →
  vencimento df = [] →
  add_dia_vencimento_df DUS_DF df metodo_venc = Raise ValueError.
Proof.
  intros Hf Hrows. rewrite (add_dia_vencimento_df_dispatch _ _ _ _ Hf).
  apply rows_nil_iff in Hrows. by rewrite Hrows.
Qed.

Lemma apply_rows_Ok {A B} (f : A → result B) rows vs :
  apply_rows f rows = Ok vs ↔ Forall2 (λ r v, f r = Ok v) rows vs.
Proof.
  revert vs. induction rows as [|r rows IH]; intros vs; cbn [apply_rows].
  - split; [intros [= <-]; constructor|]. by intros ->%Forall2_nil_inv_l.
  - split.
    + intros (v & Hv & Hrest)%bind_Ok_inv.
      apply bind_Ok_inv in Hrest as (vs' & Hvs' & [= <-]).
      constructor; [done|]. by apply IH.
    + intros (v & vs' & Hv & Hvs' & ->)%Forall2_cons_inv_l.
      rewrite Hv. cbn [mbind result_bind].
      apply IH in Hvs'. by rewrite Hvs'.
Qed.

Lemma apply_rows_Raise_iff {A B} (f : A → result B) rows e :
  apply_rows f rows = Raise e ↔ ∃ i, first_failure f rows i e.
Proof.
  induction rows as [|r rows IH]; cbn [apply_rows].
  - split; [done|]. by intros (i & (r & Hr & _) & _).
  - destruct (f r) as [v|e'] eqn:Hfr; cbn [mbind result_bind].
    + assert ((∃ i, first_failure f (r :: rows) i e)
              ↔ ∃ i, first_failure f rows i e) as ->.
      { split.
        - intros ([|i] & (r' & Hr' & Hf') & Hbefore).
          { cbn in Hr'. congruence. }
          exists i. split; [by exists r'|].
          intros j r'' Hj Hr''. apply (Hbefore (S j)); [lia|done].
        - intros (i & (r' & Hr' & Hf') & Hbefore). exists (S i).
          split; [by exists r'|].
          intros [|j] r'' Hj Hr''; cbn in Hr''.
          + exists v. congruence.
          + apply (Hbefore j); [lia|done]. }
      rewrite <-IH. by destruct (apply_rows f rows).
    + split.
      * intros [= ->]. exists 0%nat. split; [by exists r|]. intros; lia.
      * intros ([|i] & (r' & Hr' & Hf') & Hbefore).
        { cbn in Hr'. congruence. }
        destruct (Hbefore 0%nat r) as [v Hv]; [lia|done|]. congruence.
Qed.

(** X15.  Under a recognized convention the batch is all or nothing.  On
    a table with rows it raises exactly when the resolver raises on some
    row, with the exception of the first such row; on a table without
    rows it raises [ValueError] at the column assignment.  No partial
    table is returned. *)
Theorem add_dia_vencimento_df_first_failure (DUS_DF : list date)
    (df : DataFrame) (metodo_venc : string)
    (f : list date → pyval → pyval → result date) (e : pyerror) :
  resolver_of metodo_venc = Some f →
  add_dia_vencimento_df DUS_DF df metodo_venc = Raise e ↔
    (vencimento df = [] ∧ e = ValueError)
    ∨ ∃ i, first_failure (λ r, f DUS_DF r.1 r.2)
             (zip (mes_vcto (vencimento df)) (ano_vcto (vencimento df))) i e.
Proof.
  intros Hf. destruct (decide (vencimento df = [])) as [Hnil|Hrows].
  - rewrite (add_dia_vencimento_df_no_rows _ _ _ _ Hf Hnil).
    apply rows_nil_iff in Hnil as Hzip. rewrite Hzip. split.
    + intros [= <-]. by left.
    + intros [[_ ->]|(i & (r & Hr & _) & _)]; [done|].
      by rewrite lookup_nil in Hr.
  - rewrite (add_dia_vencimento_df_rows _ _ _ _ Hf Hrows).
    rewrite <-apply_rows_Raise_iff.
    destruct (apply_rows _ _) as [col|e']; cbn [mbind result_bind];
      (split; [intros Hraise; right; congruence|]);
      (intros [[Hnil _]|Hraise]; [by destruct Hrows|congruence]).
Qed.

Lemma resolver_result_in_calendar DUS_DF metodo_venc f month year d :
  resolver_of metodo_venc = Some f →
  f DUS_DF month year = Ok d → d ∈ DUS_DF.
Proof.
  unfold resolver_of. repeat case_decide; intros [= <-]; try done.
  - unfold get_first_du_month.
    intros (m & _ & (y & _ & Hr)%bind_Ok_inv)%bind_Ok_inv.
    apply iloc_Ok_elem_of, list_elem_of_filter in Hr. tauto.
  - unfold get_last_du_month.
    intros (m & _ & (y & _ & Hr)%bind_Ok_inv)%bind_Ok_inv.
    apply iloc_last_Ok_elem_of, list_elem_of_filter in Hr. tauto.
  - unfold get_third_friday_du_month.
    intros (m & _ & (y & _ & (tf & _ & Hr)%bind_Ok_inv)%bind_Ok_inv)%bind_Ok_inv.
    destruct (decide (tf ∉ DUS_DF)) as [Hout|Hin].
    + apply iloc_last_Ok_elem_of, list_elem_of_filter in Hr. tauto.
    + injection Hr as <-. by apply dec_stable.
  - unfold get_wednesday_closest_fifteen.
    intros (m & _ & (y & _ & (w & _ & Hr)%bind_Ok_inv)%bind_Ok_inv)%bind_Ok_inv.
    destruct (decide (w ∉ DUS_DF)) as [Hout|Hin].
    + apply iloc_Ok_elem_of, list_elem_of_filter in Hr. tauto.
    + injection Hr as <-. by apply dec_stable.
  - unfold get_fifteen.
    intros (m & _ & (y & _ & (b & _ & (d15 & _ & Hr)%bind_Ok_inv)%bind_Ok_inv)
              %bind_Ok_inv)%bind_Ok_inv.
    apply iloc_Ok_elem_of, list_elem_of_filter in Hr as [_ Hr].
    apply list_elem_of_filter in Hr. tauto.
Qed.

(** X16.  When the batch returns, the contract codes are untouched; under
    a recognized convention the new column holds one expiry date per row
    and every one of them is a business day, whichever of the five
    conventions was chosen; under any other selector the table is
    returned as it came. *)
Theorem add_dia_vencimento_df_result (DUS_DF : list date)
    (df df' : DataFrame) (metodo_venc : string) :
  add_dia_vencimento_df DUS_DF df metodo_venc = Ok df' →
  vencimento df' = vencimento df
  ∧ (metodo_venc ∈ METODOS →
     ∃ col, vencimento_dt df' = Some col
       ∧ length col = length (vencimento df)
       ∧ ∀ d, d ∈ col → d ∈ DUS_DF)
  ∧ (metodo_venc ∉ METODOS → df' = df).
Proof.
  intros Hrun. destruct (resolver_of metodo_venc) as [f|] eqn:Hf.
  - destruct (decide (vencimento df = [])) as [Hnil|Hrows].
    { by rewrite (add_dia_vencimento_df_no_rows _ _ _ _ Hf Hnil) in Hrun. }
    rewrite (add_dia_vencimento_df_rows _ _ _ _ Hf Hrows) in Hrun.
    apply bind_Ok_inv in Hrun as (col & Hcol & [= <-]).
    apply apply_rows_Ok in Hcol.
    split_and!; [done| |].
    + intros _. exists col. split_and!; [done| |].
      * apply Forall2_length in Hcol. rewrite <-Hcol, length_zip_with.
        rewrite mes_vcto_lookup. unfold ano_vcto.
        rewrite !length_fmap. lia.
      * intros d Hd. apply list_elem_of_lookup in Hd as [i Hi].
        destruct (Forall2_lookup_r _ _ _ _ _ Hcol Hi) as (r & _ & Hr).
        by eapply resolver_result_in_calendar.
    + intros Hno. destruct Hno. apply resolver_of_recognized. by eexists.
  - assert (metodo_venc ∉ METODOS) as Hno.
    { rewrite resolver_of_recognized, Hf. by intros [? ?]. }
    apply not_recognized_dispatch in Hno as (H1 & H2 & H3 & H4 & H5).
    unfold add_dia_vencimento_df in Hrun.
    rewrite !decide_False in Hrun by done. injection Hrun as <-.
    split_and!; [done| |done].
    intros Hin. apply resolver_of_recognized in Hin as [? ?]. congruence.
Qed.

(** *** Well-formed contract codes *)

Lemma digit_value_inv a d :
  digit_value a = Some d →
  0 ≤ d ≤ 9 ∧ a = Ascii.ascii_of_N (Z.to_N (48 + d)).
Proof.
  destruct a as [[] [] [] [] [] [] [] []]; vm_compute; intros [= <-];
    (split; [split; discriminate|reflexivity]).
Qed.

Lemma two_digit_year_check :
  Forall (λ da, Forall (λ db,
      int_of_str
        ("20" +:+ String (Ascii.ascii_of_N (Z.to_N (48 + da)))
                    (String (Ascii.ascii_of_N (Z.to_N (48 + db))) EmptyString))
        = Some (2000 + 10 * da + db)
      ∧ "20" +:+ String (Ascii.ascii_of_N (Z.to_N (48 + da)))
                   (String (Ascii.ascii_of_N (Z.to_N (48 + db))) EmptyString)
        = pretty (2000 + 10 * da + db))
    (seqZ 0 10)) (seqZ 0 10).
Proof. compute_done. Qed.

Lemma ticker_month_year_row code m y :
  ticker_month_year code = Some (m, y) →
  map_month_code code = Some m
  ∧ int_of_str ("20" +:+ str_rest code) = Some y
  ∧ "20" +:+ str_rest code = pretty y.
Proof.
  destruct code as [|l [|a [|b [|? ?]]]]; try done. cbn [ticker_month_year].
  intros Hdec.
  destruct (MONTH_CODES !! String l EmptyString) as [m'|] eqn:Hm; [|done].
  destruct (digit_value a) as [da|] eqn:Ha; [|done].
  destruct (digit_value b) as [db|] eqn:Hb; [|done].
  cbn in Hdec. injection Hdec as <- <-.
  split; [exact Hm|].
  apply digit_value_inv in Ha as [Hda ->], Hb as [Hdb ->].
  pose proof two_digit_year_check as Hall.
  eapply Forall_seqZ in Hall; [|split; [apply Hda|lia]].
  eapply Forall_seqZ in Hall; [|split; [apply Hdb|lia]].
  exact Hall.
Qed.

Lemma resolver_year_text DUS_DF metodo_venc f m year y :
  resolver_of metodo_venc = Some f →
  py_int year = Ok y → py_str year = pretty y →
  f DUS_DF (PyInt m) year = f DUS_DF (PyInt m) (PyInt y).
Proof.
  intros Hf Hy Hstr. unfold resolver_of in Hf.
  repeat case_decide; try discriminate; injection Hf as <-;
    unfold get_first_du_month, get_last_du_month, get_third_friday_du_month,
      get_wednesday_closest_fifteen, get_fifteen;
    cbn [py_int mbind result_bind]; rewrite Hy; cbn [mbind result_bind];
    [done..|].
  by rewrite Hstr.
Qed.

Lemma apply_rows_fmap {A B C} (f : B → result C) (g : A → B) l :
  apply_rows f (g <$> l) = apply_rows (f ∘ g) l.
Proof. induction l as [|x l IH]; [done|]. cbn. by rewrite IH. Qed.

Lemma apply_rows_ext {A B} (f g : A → result B) l :
  Forall (λ x, f x = g x) l → apply_rows f l = apply_rows g l.
Proof. induction 1 as [|x l Hx _ IH]; [done|]. cbn. by rewrite Hx, IH. Qed.

(** X17.  On a table with rows whose codes are all a month letter
    followed by two digits, the batch under a recognized convention is the
    row-wise resolver applied to the month of the letter and the year
    2000 plus the two-digit number; on a table without rows it raises
    [ValueError]. *)
Theorem add_dia_vencimento_df_well_formed (DUS_DF : list date)
    (df : DataFrame) (metodo_venc : string)
    (f : list date → pyval → pyval → result date) :
  resolver_of metodo_venc = Some f →
  Forall (λ code, is_Some (ticker_month_year code)) (vencimento df) →
  (vencimento df ≠ [] →
   add_dia_vencimento_df DUS_DF df metodo_venc =
     col ← apply_rows
             (λ code, match ticker_month_year code with
                      | Some (m, y) => f DUS_DF (PyInt m) (PyInt y)
                      | None => Raise ValueError
                      end) (vencimento df);
     Ok (set_vencimento_dt df col))
  ∧ (vencimento df = [] →
     add_dia_vencimento_df DUS_DF df metodo_venc = Raise ValueError).
Proof.
  intros Hf Hall.
  split; [|intros Hnil; by apply (add_dia_vencimento_df_no_rows _ _ _ f)].
  intros Hrows. rewrite (add_dia_vencimento_df_rows _ _ _ _ Hf Hrows).
  rewrite mes_vcto_lookup. unfold ano_vcto.
  rewrite bool_decide_eq_true_2.
  2:{ unfold mes_vcto_raw. apply Forall_fmap.
      eapply Forall_impl; [exact Hall|]. intros code [[m y] Hcode]. simpl.
      apply ticker_month_year_row in Hcode as [-> _]. by eexists. }
  rewrite zip_fmap_same, apply_rows_fmap.
  rewrite (apply_rows_ext _
    (λ code, match ticker_month_year code with
             | Some (m, y) => f DUS_DF (PyInt m) (PyInt y)
             | None => Raise ValueError
             end)); [done|].
  eapply Forall_impl; [exact Hall|]. intros code [[m y] Hcode]. simpl.
  rewrite Hcode.
  apply ticker_month_year_row in Hcode as (-> & Hy & Hstr). cbn [default].
  apply (resolver_year_text _ _ _ _ _ _ Hf); cbn [py_int py_str]; [|done].
  by rewrite Hy.
Qed.

(** ** Expiry dates and day counts together *)

(** X18.  Whatever the convention, the business-day count from a trade
    date to the expiry date the resolver returned is positive exactly
    when the trade date is before the expiry, and 0 otherwise. *)
Theorem calc_du_to_expiry (DUS_DF : list date) (metodo_venc : string)
    (f : list date → pyval → pyval → result date)
    (month year : pyval) (data_pregao vencimento_dt : date) :
  resolver_of metodo_venc = Some f →
  f DUS_DF month year = Ok vencimento_dt →
  (data_pregao < vencimento_dt →
   (1 ≤ calc_du DUS_DF data_pregao vencimento_dt)%nat)
  ∧ (vencimento_dt ≤ data_pregao →
     calc_du DUS_DF data_pregao vencimento_dt = 0%nat).
Proof.
  intros Hf Hres.
  pose proof (resolver_result_in_calendar _ _ _ _ _ _ Hf Hres) as Hin.
  unfold calc_du. split.
  - intros Hlt.
    assert (vencimento_dt ∈ filter (λ d, data_pregao < d ∧ d ≤ vencimento_dt)
                              DUS_DF) as Hmem
      by (apply list_elem_of_filter; split; [lia|done]).
    destruct (filter _ DUS_DF); [by apply not_elem_of_nil in Hmem|].
    simpl. lia.
  - intros Hle. by rewrite filter_empty_interval.
Qed.

(** ** Instances of the further properties *)

Lemma get_first_du_month_spec_witness :
  ascending sample_DUS
  ∧ (∀ d, get_first_du_month sample_DUS (PyInt 1) (PyInt 2021) = Ok d ↔
          first_in_month sample_DUS 1 2021 d)
  ∧ (get_first_du_month sample_DUS (PyInt 1) (PyInt 2021) = Raise IndexError ↔
     ∀ d, d ∈ sample_DUS → ¬ in_month 1 2021 d).
Proof.
  assert (ascending sample_DUS) as H1 by exact ascending_sample_DUS.
  split; [exact H1|].
  exact (get_first_du_month_spec sample_DUS 1 2021 H1).
Defined.

Lemma get_last_du_month_spec_witness :
  ascending sample_DUS
  ∧ (∀ d, get_last_du_month sample_DUS (PyInt 1) (PyInt 2021) = Ok d ↔
          last_in_month sample_DUS 1 2021 d)
  ∧ (get_last_du_month sample_DUS (PyInt 1) (PyInt 2021) = Raise IndexError ↔
     ∀ d, d ∈ sample_DUS → ¬ in_month 1 2021 d).
Proof.
  assert (ascending sample_DUS) as H1 by exact ascending_sample_DUS.
  split; [exact H1|].
  exact (get_last_du_month_spec sample_DUS 1 2021 H1).
Defined.

Lemma get_first_le_get_last_witness :
  ascending sample_DUS
  ∧ (∀ e, get_first_du_month sample_DUS (PyInt 1) (PyStr "2021") = Raise e ↔
          get_last_du_month sample_DUS (PyInt 1) (PyStr "2021") = Raise e)
  ∧ (∀ a b, get_first_du_month sample_DUS (PyInt 1) (PyStr "2021") = Ok a →
            get_last_du_month sample_DUS (PyInt 1) (PyStr "2021") = Ok b →
            a ≤ b).
Proof.
  assert (ascending sample_DUS) as H1 by exact ascending_sample_DUS.
  split; [exact H1|].
  exact (get_first_le_get_last sample_DUS (PyInt 1) (PyStr "2021") H1).
Defined.

Lemma resolvers_accept_convertible_witness :
  py_int (PyStr "1") = Ok 1 ∧ py_int (PyStr "2021") = Ok 2021
  ∧ get_first_du_month sample_DUS (PyStr "1") (PyStr "2021")
    = get_first_du_month sample_DUS (PyInt 1) (PyInt 2021)
  ∧ get_last_du_month sample_DUS (PyStr "1") (PyStr "2021")
    = get_last_du_month sample_DUS (PyInt 1) (PyInt 2021)
  ∧ get_third_friday_du_month sample_DUS (PyStr "1") (PyStr "2021")
    = get_third_friday_du_month sample_DUS (PyInt 1) (PyInt 2021)
  ∧ get_wednesday_closest_fifteen sample_DUS (PyStr "1") (PyStr "2021")
    = get_wednesday_closest_fifteen sample_DUS (PyInt 1) (PyInt 2021).
Proof.
  assert (py_int (PyStr "1") = Ok 1) as H1 by reflexivity.
  assert (py_int (PyStr "2021") = Ok 2021) as H2 by reflexivity.
  split; [exact H1|]. split; [exact H2|].
  exact (resolvers_accept_convertible sample_DUS
           (PyStr "1") (PyStr "2021") 1 2021 H1 H2).
Defined.

Lemma get_fifteen_text_month_witness :
  py_int (PyStr "1") = Ok 1 ∧ py_int (PyStr "2021") = Ok 2021
  ∧ get_fifteen sample_DUS (PyStr "1") (PyStr "2021") = Raise TypeError.
Proof.
  assert (py_int (PyStr "1") = Ok 1) as H1 by reflexivity.
  assert (py_int (PyStr "2021") = Ok 2021) as H2 by reflexivity.
  split; [exact H1|]. split; [exact H2|].
  exact (get_fifteen_text_month sample_DUS "1" (PyStr "2021") 1 2021 H1 H2).
Defined.

Lemma resolvers_outside_window_witness :
  sample_DUS ⊆ DCS_DF
  ∧ py_int (PyInt 12) = Ok 12 ∧ py_int (PyStr "2099") = Ok 2099
  ∧ (2099 < 1990 ∨ 2070 < 2099)
  ∧ get_first_du_month sample_DUS (PyInt 12) (PyStr "2099") = Raise IndexError
  ∧ get_last_du_month sample_DUS (PyInt 12) (PyStr "2099") = Raise IndexError
  ∧ get_third_friday_du_month sample_DUS (PyInt 12) (PyStr "2099")
    = Raise IndexError
  ∧ get_wednesday_closest_fifteen sample_DUS (PyInt 12) (PyStr "2099")
    = Raise IndexError
  ∧ ∃ e, get_fifteen sample_DUS (PyInt 12) (PyStr "2099") = Raise e.
Proof.
  assert (sample_DUS ⊆ DCS_DF) as H1 by exact sample_DUS_in_DCS_DF.
  assert (py_int (PyInt 12) = Ok 12) as H2 by reflexivity.
  assert (py_int (PyStr "2099") = Ok 2099) as H3 by reflexivity.
  assert (2099 < 1990 ∨ 2070 < 2099) as H4 by lia.
  split; [exact H1|]. split; [exact H2|]. split; [exact H3|].
  split; [exact H4|].
  exact (resolvers_outside_window sample_DUS
           (PyInt 12) (PyStr "2099") 12 2099 H1 H2 H3 H4).
Defined.

Lemma day_counts_additive_witness :
  ymd2ord 2021 1 4 ≤ ymd2ord 2021 1 12
  ∧ ymd2ord 2021 1 12 ≤ ymd2ord 2021 2 1
  ∧ calc_du sample_DUS (ymd2ord 2021 1 4) (ymd2ord 2021 2 1)
    = (calc_du sample_DUS (ymd2ord 2021 1 4) (ymd2ord 2021 1 12)
       + calc_du sample_DUS (ymd2ord 2021 1 12) (ymd2ord 2021 2 1))%nat
  ∧ calc_dc (ymd2ord 2021 1 4) (ymd2ord 2021 2 1)
    = (calc_dc (ymd2ord 2021 1 4) (ymd2ord 2021 1 12)
       + calc_dc (ymd2ord 2021 1 12) (ymd2ord 2021 2 1))%nat.
Proof.
  assert (ymd2ord 2021 1 4 ≤ ymd2ord 2021 1 12) as H1
    by (vm_compute; discriminate).
  assert (ymd2ord 2021 1 12 ≤ ymd2ord 2021 2 1) as H2
    by (vm_compute; discriminate).
  split; [exact H1|]. split; [exact H2|].
  exact (day_counts_additive sample_DUS _ _ _ H1 H2).
Defined.

Lemma calc_du_positions_witness :
  ascending sample_DUS
  ∧ sample_DUS !! 23%nat = Some (ymd2ord 2021 1 4)
  ∧ sample_DUS !! 29%nat = Some (ymd2ord 2021 1 12)
  ∧ (23 ≤ 29)%nat
  ∧ calc_du sample_DUS (ymd2ord 2021 1 4) (ymd2ord 2021 1 12)
    = (29 - 23)%nat.
Proof.
  assert (ascending sample_DUS) as H1 by exact ascending_sample_DUS.
  assert (sample_DUS !! 23%nat = Some (ymd2ord 2021 1 4)) as H2
    by (vm_compute; reflexivity).
  assert (sample_DUS !! 29%nat = Some (ymd2ord 2021 1 12)) as H3
    by (vm_compute; reflexivity).
  assert (23 ≤ 29)%nat as H4 by lia.
  split; [exact H1|]. split; [exact H2|]. split; [exact H3|].
  split; [exact H4|].
  exact (calc_du_positions sample_DUS 23 29 _ _ H1 H2 H3 H4).
Defined.

Lemma calc_du_le_days_witness :
  NoDup sample_DUS ∧ ymd2ord 2021 1 4 ≤ ymd2ord 2021 1 12
  ∧ Z.of_nat (calc_du sample_DUS (ymd2ord 2021 1 4) (ymd2ord 2021 1 12))
    ≤ ymd2ord 2021 1 12 - ymd2ord 2021 1 4.
Proof.
  assert (NoDup sample_DUS) as H1 by exact NoDup_sample_DUS.
  assert (ymd2ord 2021 1 4 ≤ ymd2ord 2021 1 12) as H2
    by (vm_compute; discriminate).
  split; [exact H1|]. split; [exact H2|].
  exact (calc_du_le_days sample_DUS _ _ H1 H2).
Defined.

Lemma third_friday_day_and_direction_witness :
  1 ≤ 1 ≤ 12 ∧ 1990 ≤ 2021 ≤ 2069
  ∧ ∃ tf, is_third_friday 1 2021 tf
      ∧ in_month 1 2021 tf ∧ weekday tf = 4 ∧ 15 ≤ day_of tf ≤ 21
      ∧ ∀ d, get_third_friday_du_month sample_DUS (PyInt 1) (PyInt 2021)
               = Ok d →
          d ≤ tf ∧ (d = tf ↔ tf ∈ sample_DUS).
Proof.
  assert (1 ≤ 1 ≤ 12) as H1 by lia.
  assert (1990 ≤ 2021 ≤ 2069) as H2 by lia.
  split; [exact H1|]. split; [exact H2|].
  exact (third_friday_day_and_direction sample_DUS 1 2021 H1 H2).
Defined.

Lemma closest_wednesday_day_and_direction_witness :
  1 ≤ 2 ≤ 12 ∧ 1990 ≤ 2021 ≤ 2069
  ∧ ∃ w, is_closest_wednesday 2 2021 w
      ∧ in_month 2 2021 w ∧ weekday w = 2 ∧ 12 ≤ day_of w ≤ 18
      ∧ ∀ d, get_wednesday_closest_fifteen sample_DUS (PyInt 2) (PyInt 2021)
               = Ok d →
          w ≤ d ∧ (d = w ↔ w ∈ sample_DUS).
Proof.
  assert (1 ≤ 2 ≤ 12) as H1 by lia.
  assert (1990 ≤ 2021 ≤ 2069) as H2 by lia.
  split; [exact H1|]. split; [exact H2|].
  exact (closest_wednesday_day_and_direction sample_DUS 2 2021 H1 H2).
Defined.

Lemma get_fifteen_jan_2021 :
  get_fifteen sample_DUS (PyInt 1) (PyInt 2021) = Ok (ymd2ord 2021 1 18).
Proof. vm_compute. reflexivity. Qed.

Lemma get_fifteen_in_month_witness :
  sample_DUS ⊆ DCS_DF ∧ 1 ≤ 1 ≤ 12 ∧ 1990 ≤ 2021 ≤ 2069
  ∧ get_fifteen sample_DUS (PyInt 1) (PyInt 2021) = Ok (ymd2ord 2021 1 18)
  ∧ ymd2ord 2021 1 18 ∈ sample_DUS
  ∧ in_month 1 2021 (ymd2ord 2021 1 18)
  ∧ 15 ≤ day_of (ymd2ord 2021 1 18).
Proof.
  assert (sample_DUS ⊆ DCS_DF) as H1 by exact sample_DUS_in_DCS_DF.
  assert (1 ≤ 1 ≤ 12) as H2 by lia.
  assert (1990 ≤ 2021 ≤ 2069) as H3 by lia.
  assert (get_fifteen sample_DUS (PyInt 1) (PyInt 2021)
            = Ok (ymd2ord 2021 1 18)) as H4 by exact get_fifteen_jan_2021.
  split; [exact H1|]. split; [exact H2|]. split; [exact H3|].
  split; [exact H4|].
  exact (get_fifteen_in_month sample_DUS 1 2021 _ H1 H2 H3 H4).
Defined.

Lemma get_fifteen_between_first_and_last_witness :
  ascending sample_DUS
  ∧ get_first_du_month sample_DUS (PyInt 1) (PyInt 2021)
    = Ok (ymd2ord 2021 1 4)
  ∧ get_fifteen sample_DUS (PyInt 1) (PyInt 2021) = Ok (ymd2ord 2021 1 18)
  ∧ get_last_du_month sample_DUS (PyInt 1) (PyInt 2021)
    = Ok (ymd2ord 2021 1 29)
  ∧ ymd2ord 2021 1 4 ≤ ymd2ord 2021 1 18 ≤ ymd2ord 2021 1 29.
Proof.
  assert (ascending sample_DUS) as H1 by exact ascending_sample_DUS.
  assert (get_first_du_month sample_DUS (PyInt 1) (PyInt 2021)
            = Ok (ymd2ord 2021 1 4)) as H2 by (vm_compute; reflexivity).
  assert (get_fifteen sample_DUS (PyInt 1) (PyInt 2021)
            = Ok (ymd2ord 2021 1 18)) as H3 by exact get_fifteen_jan_2021.
  assert (get_last_du_month sample_DUS (PyInt 1) (PyInt 2021)
            = Ok (ymd2ord 2021 1 29)) as H4 by (vm_compute; reflexivity).
  split; [exact H1|]. split; [exact H2|]. split; [exact H3|].
  split; [exact H4|].
  exact (get_fifteen_between_first_and_last sample_DUS
           (PyInt 1) (PyInt 2021) _ _ _ H1 H2 H3 H4).
Defined.

Lemma add_dia_vencimento_df_first_failure_witness :
  resolver_of "ult_du" = Some get_last_du_month
  ∧ (add_dia_vencimento_df sample_DUS (mkDataFrame ["F21"; "F2x"] None) "ult_du"
       = Raise ValueError ↔
     (vencimento (mkDataFrame ["F21"; "F2x"] None) = [] ∧ ValueError = ValueError)
     ∨ ∃ i, first_failure (λ r, get_last_du_month sample_DUS r.1 r.2)
              (zip (mes_vcto (vencimento (mkDataFrame ["F21"; "F2x"] None)))
                   (ano_vcto (vencimento (mkDataFrame ["F21"; "F2x"] None))))
              i ValueError).
Proof.
  assert (resolver_of "ult_du" = Some get_last_du_month) as H1 by reflexivity.
  split; [exact H1|].
  exact (add_dia_vencimento_df_first_failure sample_DUS
           (mkDataFrame ["F21"; "F2x"] None) "ult_du" get_last_du_month
           ValueError H1).
Defined.

Lemma add_dia_vencimento_df_result_witness :
  add_dia_vencimento_df sample_DUS (mkDataFrame ["F21"; "G21"] None) "prim_du"
    = Ok (mkDataFrame ["F21"; "G21"]
            (Some [ymd2ord 2021 1 4; ymd2ord 2021 2 1]))
  ∧ vencimento (mkDataFrame ["F21"; "G21"]
                  (Some [ymd2ord 2021 1 4; ymd2ord 2021 2 1]))
    = vencimento (mkDataFrame ["F21"; "G21"] None)
  ∧ ("prim_du" ∈ METODOS →
     ∃ col, vencimento_dt (mkDataFrame ["F21"; "G21"]
                             (Some [ymd2ord 2021 1 4; ymd2ord 2021 2 1]))
            = Some col
       ∧ length col = length (vencimento (mkDataFrame ["F21"; "G21"] None))
       ∧ ∀ d, d ∈ col → d ∈ sample_DUS)
  ∧ ("prim_du" ∉ METODOS →
     mkDataFrame ["F21"; "G21"] (Some [ymd2ord 2021 1 4; ymd2ord 2021 2 1])
     = mkDataFrame ["F21"; "G21"] None).
Proof.
  assert (add_dia_vencimento_df sample_DUS (mkDataFrame ["F21"; "G21"] None)
            "prim_du"
          = Ok (mkDataFrame ["F21"; "G21"]
                  (Some [ymd2ord 2021 1 4; ymd2ord 2021 2 1]))) as H1
    by (vm_compute; reflexivity).
  split; [exact H1|].
  exact (add_dia_vencimento_df_result sample_DUS _ _ "prim_du" H1).
Defined.

Lemma add_dia_vencimento_df_well_formed_witness :
  resolver_of "dia_15" = Some get_fifteen
  ∧ Forall (λ code, is_Some (ticker_month_year code))
      (vencimento (mkDataFrame ["F21"; "G21"] None))
  ∧ (vencimento (mkDataFrame ["F21"; "G21"] None) ≠ [] →
     add_dia_vencimento_df sample_DUS (mkDataFrame ["F21"; "G21"] None)
       "dia_15"
     = (col ← apply_rows
                (λ code, match ticker_month_year code with
                         | Some (m, y) =>
                             get_fifteen sample_DUS (PyInt m) (PyInt y)
                         | None => Raise ValueError
                         end) (vencimento (mkDataFrame ["F21"; "G21"] None));
        Ok (set_vencimento_dt (mkDataFrame ["F21"; "G21"] None) col)))
  ∧ (vencimento (mkDataFrame ["F21"; "G21"] None) = [] →
     add_dia_vencimento_df sample_DUS (mkDataFrame ["F21"; "G21"] None)
       "dia_15"
     = Raise ValueError).
Proof.
  assert (resolver_of "dia_15" = Some get_fifteen) as H1 by reflexivity.
  assert (Forall (λ code, is_Some (ticker_month_year code))
            (vencimento (mkDataFrame ["F21"; "G21"] None))) as H2
    by (simpl; repeat constructor; by eexists).
  split; [exact H1|]. split; [exact H2|].
  exact (add_dia_vencimento_df_well_formed sample_DUS
           (mkDataFrame ["F21"; "G21"] None) "dia_15" get_fifteen H1 H2).
Defined.

Lemma calc_du_to_expiry_witness :
  resolver_of "dia_15" = Some get_fifteen
  ∧ get_fifteen sample_DUS (PyInt 1) (PyInt 2021) = Ok (ymd2ord 2021 1 18)
  ∧ (ymd2ord 2021 1 4 < ymd2ord 2021 1 18 →
     (1 ≤ calc_du sample_DUS (ymd2ord 2021 1 4) (ymd2ord 2021 1 18))%nat)
  ∧ (ymd2ord 2021 1 18 ≤ ymd2ord 2021 1 4 →
     calc_du sample_DUS (ymd2ord 2021 1 4) (ymd2ord 2021 1 18) = 0%nat).
Proof.
  assert (resolver_of "dia_15" = Some get_fifteen) as H1 by reflexivity.
  assert (get_fifteen sample_DUS (PyInt 1) (PyInt 2021)
            = Ok (ymd2ord 2021 1 18)) as H2 by exact get_fifteen_jan_2021.
  split; [exact H1|]. split; [exact H2|].
  exact (calc_du_to_expiry sample_DUS "dia_15" get_fifteen
           (PyInt 1) (PyInt 2021) (ymd2ord 2021 1 4) _ H1 H2).
Defined.

Lemma get_fifteen_next_business_day_witness :
  ascending sample_DUS ∧ sample_DUS ⊆ DCS_DF
  ∧ 1 ≤ 1 ≤ 12 ∧ 1990 ≤ 2021 ≤ 2069
  ∧ (∃ d0, d0 ∈ sample_DUS ∧ in_month 1 2021 d0 ∧ ymd2ord 2021 1 15 ≤ d0)
  ∧ ∀ d, get_fifteen sample_DUS (PyInt 1) (PyInt 2021) = Ok d ↔
         earliest_from sample_DUS (ymd2ord 2021 1 15) d.
Proof.
  assert (ascending sample_DUS) as H1 by exact ascending_sample_DUS.
  assert (sample_DUS ⊆ DCS_DF) as H2 by exact sample_DUS_in_DCS_DF.
  assert (1 ≤ 1 ≤ 12) as H3 by lia.
  assert (1990 ≤ 2021 ≤ 2069) as H4 by lia.
  assert (∃ d0, d0 ∈ sample_DUS ∧ in_month 1 2021 d0
                ∧ ymd2ord 2021 1 15 ≤ d0) as H5.
  { exists (ymd2ord 2021 1 18). split_and!.
    - compute_done.
    - by vm_compute.
    - vm_compute. discriminate. }
  split; [exact H1|]. split; [exact H2|]. split; [exact H3|].
  split; [exact H4|]. split; [exact H5|].
  exact (get_fifteen_next_business_day sample_DUS 1 2021 H1 H2 H3 H4 H5).
Defined.
